(** * Activity tracker: accounting engine, persistence, settings and reminders

    A shallow embedding of [Activity_Tracker.py]: the classes
    [ActivityTracker], [SettingsManager] and [PopupManager].

    Modelling conventions.
    - Python floats (timestamps, durations, thresholds) are exact rationals
      [Qc]; rounding, NaN and infinities are outside the model.
    - [self.activities] is an insertion-ordered dictionary: an association
      list with one entry per key, in first-insertion order.
    - Every read of the clock, of the platform's foreground window, of the
      user's answer to a dialog and of the outcome of a file write is an
      explicit input of the operation that performs it.
    - The JSON files are typed: the activity file holds the five keys
      written by [save_data], each possibly absent; the settings file holds
      a JSON object. *)

From stdpp Require Import gmap strings list numbers sorting pretty.
From Stdlib Require Import QArith Qcanon Ascii.

Local Open Scope string_scope.
Local Open Scope Qc_scope.

(** ** Numbers *)

(** Python's [int(x)] on a float: truncation towards zero. *)
Definition py_int (x : Qc) : Z := Z.quot (Qnum x) (Zpos (Qden x)).

(** Python's [max(a, b)]: the first argument unless the second is larger. *)
Definition py_max (a b : Qc) : Qc := if bool_decide (a < b) then b else a.

(** ** Sequences *)

(** The slice [l[-n:]] for a positive literal [n]. *)
Definition slice_last {A} (n : nat) (l : list A) : list A :=
  drop (length l - n) l.

(** The slice [l[:n]]; a negative [n] counts from the end. *)
Definition slice_to {A} (n : Z) (l : list A) : list A :=
  if bool_decide (n < 0)%Z
  then take (length l - Z.to_nat (- n)) l
  else take (Z.to_nat n) l.

(** ** Insertion-ordered dictionaries with string keys *)

Module PyDict.

Definition t (V : Type) : Type := list (string * V).

Fixpoint get {V} (k : string) (d : t V) : option V :=
  match d with
  | [] => None
  | (k', v) :: d' => if bool_decide (k = k') then Some v else get k d'
  end.

(** [d[k] += delta] on a [defaultdict(float)]: a missing key is first
    created with value [0.0], at the end of the dictionary. *)
Fixpoint iadd (k : string) (delta : Qc) (d : t Qc) : t Qc :=
  match d with
  | [] => [(k, 0 + delta)]
  | (k', v) :: d' =>
      if bool_decide (k = k') then (k', v + delta) :: d'
      else (k', v) :: iadd k delta d'
  end.

Definition keys {V} (d : t V) : list string := d.*1.
Definition values {V} (d : t V) : list V := d.*2.

(** Reading a [defaultdict(float)] without creating the key. *)
Definition value_of (k : string) (d : t Qc) : Qc := default 0 (get k d).

(** Python's [sum(d.values())]: left to right, starting from [0]. *)
Definition sum_values (d : t Qc) : Qc := fold_left Qcplus (values d) 0.

End PyDict.

(** ** [sorted(items, key=lambda x: x[1], reverse=True)]

    Python's sort is stable, also under [reverse=True]: entries with equal
    keys keep their original order. A stable insertion sort computes that
    list ([sorted_desc_unique] below shows that it is the only one). *)

Fixpoint insert_desc (x : string * Qc) (l : list (string * Qc)) : list (string * Qc) :=
  match l with
  | [] => [x]
  | y :: l' => if bool_decide (x.2 < y.2) then y :: insert_desc x l' else x :: y :: l'
  end.

Definition sorted_desc (l : list (string * Qc)) : list (string * Qc) :=
  foldr insert_desc [] l.

(** ** Files *)

Inductive file (A : Type) : Type :=
  | Missing                (* [os.path.exists] is false *)
  | Unreadable             (* reading or parsing raises *)
  | Content (a : A).
Arguments Missing {A}.
Arguments Unreadable {A}.
Arguments Content {A} a.

Inductive write_outcome : Type :=
  | WriteOk
  | OpenFails              (* [open(..., 'w')] raises: the file is untouched *)
  | DumpFails.             (* [json.dump] raises after the file was truncated *)

(** ** The platform probe behind [get_active_window] *)

Inductive platform : Type :=
  | NoWin32                                   (* [_HAS_WIN32] is false *)
  | Win32Raises                               (* some win32/psutil call raises *)
  | Win32Window (window pid : Z) (name title : string).

(** ** ActivityTracker *)

Module ActivityTracker.

Record log_entry : Type := LogEntry {
  timestamp : string;
  app_name : string;
  window_title : string;
  action : string
}.

Record tracker : Type := Tracker {
  activities : PyDict.t Qc;
  current_activity : option string;
  last_check_time : Qc;
  idle_time : Qc;
  active_time : Qc;
  session_start : Qc;
  daily_logs : list log_entry;
  is_tracking : bool
}.

(** The object written by [save_data]; [load_data] reads every key with
    [data.get(key, default)], so each may be absent. *)
Record data : Type := Data {
  data_activities : option (PyDict.t Qc);
  data_idle_time : option Qc;
  data_active_time : option Qc;
  data_session_start : option Qc;
  data_daily_logs : option (list log_entry)
}.

Definition disk : Type := file data.

(** What one call of [track_activity] reads from its environment. *)
Record tick : Type := Tick {
  clock : Qc;                 (* [time.time()] *)
  probe : platform;           (* the foreground window *)
  stamp : string;             (* [datetime.datetime.now().isoformat()] *)
  write : write_outcome       (* outcome of the save, if one is triggered *)
}.

Record statistics : Type := Statistics {
  stat_total_time : Qc;
  stat_active_time : Qc;
  stat_idle_time : Qc;
  stat_activities : PyDict.t Qc;
  stat_top_apps : list (string * Qc)
}.

Definition get_active_window (p : platform) : option (string * string) :=
  match p with
  | NoWin32 => None
  | Win32Raises => None
  | Win32Window window pid name title =>
      if bool_decide (window = 0)%Z then None
      else if bool_decide (pid = 0)%Z then None
      else Some (name, title)
  end.

Definition to_data (s : tracker) : data :=
  {| data_activities := Some (activities s);
     data_idle_time := Some (idle_time s);
     data_active_time := Some (active_time s);
     data_session_start := Some (session_start s);
     data_daily_logs := Some (slice_last 1000 (daily_logs s)) |}.

Definition save_data (w : write_outcome) (s : tracker) (d : disk) : disk :=
  match w with
  | WriteOk => Content (to_data s)
  | OpenFails => d
  | DumpFails => Unreadable
  end.

Definition load_data (s : tracker) (d : disk) : tracker :=
  match d with
  | Content f =>
      {| activities := default [] (data_activities f);
         current_activity := current_activity s;
         last_check_time := last_check_time s;
         idle_time := default 0 (data_idle_time f);
         active_time := default 0 (data_active_time f);
         session_start := default (session_start s) (data_session_start f);
         daily_logs := default [] (data_daily_logs f);
         is_tracking := is_tracking s |}
  | Missing | Unreadable => s
  end.

(** [__init__]: [t_check] and [t_start] are its two clock reads. *)
Definition init (t_check t_start : Qc) (d : disk) : tracker :=
  load_data
    {| activities := [];
       current_activity := None;
       last_check_time := t_check;
       idle_time := 0;
       active_time := 0;
       session_start := t_start;
       daily_logs := [];
       is_tracking := true |} d.

Definition track_activity (e : tick) (s : tracker) (d : disk) : tracker * disk :=
  let current_time := clock e in
  let time_delta := current_time - last_check_time s in
  let time_delta := if bool_decide (time_delta < 0) then 0 else time_delta in
  let s1 :=
    match get_active_window (probe e) with
    | Some (app, title) =>
        let switched := bool_decide (current_activity s ≠ Some app) in
        {| activities := PyDict.iadd app time_delta (activities s);
           current_activity := if switched then Some app else current_activity s;
           last_check_time := current_time;
           idle_time := idle_time s;
           active_time := active_time s + time_delta;
           session_start := session_start s;
           daily_logs :=
             if switched
             then daily_logs s ++ [LogEntry (stamp e) app title "switched_to"]
             else daily_logs s;
           is_tracking := is_tracking s |}
    | None =>
        {| activities := activities s;
           current_activity := current_activity s;
           last_check_time := current_time;
           idle_time := idle_time s + time_delta;
           active_time := active_time s;
           session_start := session_start s;
           daily_logs := daily_logs s;
           is_tracking := is_tracking s |}
    end in
  if bool_decide (py_int current_time `mod` 10 = 0)%Z
  then (s1, save_data (write e) s1 d)
  else (s1, d).

Definition get_top_apps (n : Z) (s : tracker) : list (string * Qc) :=
  slice_to n (sorted_desc (activities s)).

Definition get_statistics (now : Qc) (s : tracker) : statistics :=
  {| stat_total_time := py_max 1 (now - session_start s);
     stat_active_time := active_time s;
     stat_idle_time := idle_time s;
     stat_activities := activities s;
     stat_top_apps := get_top_apps 5 s |}.

Definition clear_data (now : Qc) (w : write_outcome) (s : tracker) (d : disk)
  : tracker * disk :=
  let s' :=
    {| activities := [];
       current_activity := current_activity s;
       last_check_time := last_check_time s;
       idle_time := 0;
       active_time := 0;
       session_start := now;
       daily_logs := [];
       is_tracking := is_tracking s |} in
  (s', save_data w s' d).

(** A sequence of [track_activity] calls, as the tracking loop makes them. *)
Definition run (es : list tick) (w : tracker * disk) : tracker * disk :=
  fold_left (λ w e, track_activity e w.1 w.2) es w.

End ActivityTracker.

(** ** Settings values: what [json.load] can put under a key *)

#[warnings="-register-all"]
Inductive value : Type :=
  | VNone
  | VBool (b : bool)
  | VNum (q : Qc)
  | VStr (s : string)
  | VArr (items : list value)
  | VObj (members : list (string * value)).

(** Python truthiness, as tested by [if not x]. *)
Definition truthy (v : value) : bool :=
  match v with
  | VNone => false
  | VBool b => b
  | VNum q => bool_decide (q ≠ 0)
  | VStr s => bool_decide (s ≠ "")
  | VArr items => bool_decide (items ≠ [])
  | VObj members => bool_decide (members ≠ [])
  end.

(** ** SettingsManager *)

Module SettingsManager.

Definition default_settings : gmap string value :=
  list_to_map
    [ ("reminders_enabled", VBool true);
      ("break_reminder_enabled", VBool true);
      ("break_interval", VNum (Qc_of_Z 30));
      ("app_usage_warnings", VBool true);
      ("entertainment_threshold", VNum (Qc_of_Z 2));
      ("idle_warning_enabled", VBool true);
      ("idle_threshold", VNum (Qc_of_Z 15));
      ("tracking_interval", VNum (Qc_of_Z 5));
      ("popup_interval", VNum (Qc_of_Z 30)) ].

(** [merged = base.copy(); merged.update(loaded)]: every key of [loaded]
    overrides the entry of [base]. *)
Definition dict_update (base loaded : gmap string value) : gmap string value :=
  loaded ∪ base.

Definition load_settings (f : file (gmap string value)) : gmap string value :=
  match f with
  | Content loaded => dict_update default_settings loaded
  | Missing | Unreadable => default_settings
  end.

Definition save_settings (w : write_outcome) (settings : gmap string value)
    (f : file (gmap string value)) : file (gmap string value) :=
  match w with
  | WriteOk => Content settings
  | OpenFails => f
  | DumpFails => Unreadable
  end.

(** [self.settings.get(key, self.default_settings.get(key))] *)
Definition get_setting (settings : gmap string value) (key : string) : value :=
  match settings !! key with
  | Some v => v
  | None => default VNone (default_settings !! key)
  end.

Definition set_setting (w : write_outcome) (key : string) (v : value)
    (settings : gmap string value) (f : file (gmap string value))
  : gmap string value * file (gmap string value) :=
  let settings' := <[key := v]> settings in
  (settings', save_settings w settings' f).

End SettingsManager.

(** ** PopupManager *)

Module PopupManager.
Import ActivityTracker SettingsManager.

(** The text of a popup, by the numbers and names formatted into it. *)
Inductive message : Type :=
  | BreakMessage (work_minutes : Qc)
  | UsageMessage (duration_hours : Qc) (app : string)
  | IdleMessage (idle_minutes : Qc).

Record popup : Type := Popup {
  title : string;
  body : message;
  kind : string
}.

Record popup_manager : Type := PopupMgr {
  next_break_time : Qc;
  entertainment_keywords : list string
}.

Definition init : popup_manager :=
  {| next_break_time := 0;
     entertainment_keywords :=
       ["chrome"; "firefox"; "discord"; "steam"; "spotify"; "youtube";
        "netflix"; "edge"] |}.

(** The answer to [messagebox.askyesno("Snooze?", ...)]. *)
Inductive answer : Type := Yes | No | DialogRaises.

(** What one call of [check_and_show_reminders] reads from its
    environment: three clock reads and the user's answer. *)
Record reminder_env : Type := ReminderEnv {
  clock_stats : Qc;       (* in [get_statistics] *)
  clock_check : Qc;       (* in the eligibility test *)
  clock_resolve : Qc;     (* when the snooze question is answered *)
  snooze_answer : answer
}.

(** Computations that update the manager, show popups and may raise. *)
Definition M (A : Type) : Type :=
  popup_manager * list popup → option A * (popup_manager * list popup).

#[export] Instance M_ret : MRet M := λ A a σ, (Some a, σ).
#[export] Instance M_bind : MBind M := λ A B k m σ,
  match m σ with
  | (Some a, σ') => k a σ'
  | (None, σ') => (None, σ')
  end.

Definition raise {A} : M A := λ σ, (None, σ).
Definition get_next_break_time : M Qc := λ σ, (Some (next_break_time σ.1), σ).
Definition set_next_break_time (t : Qc) : M unit := λ σ,
  (Some (), (PopupMgr t (entertainment_keywords σ.1), σ.2)).
Definition get_keywords : M (list string) := λ σ,
  (Some (entertainment_keywords σ.1), σ).

(** [show_simple_popup] catches its own exceptions: it never raises. *)
Definition show_simple_popup (title : string) (body : message) (kind : string)
  : M unit := λ σ, (Some (), (σ.1, (σ.2 ++ [Popup title body kind])%list)).

Fixpoint for_each {A} (l : list A) (f : A → M unit) : M unit :=
  match l with
  | [] => mret ()
  | x :: l' => f x ;; for_each l' f
  end.

Definition lower_ascii (c : ascii) : ascii :=
  let n := nat_of_ascii c in
  if bool_decide (65 ≤ n ≤ 90)%nat then ascii_of_nat (n + 32) else c.

(** [str.lower], on ASCII letters. *)
Fixpoint lower (s : string) : string :=
  match s with
  | EmptyString => EmptyString
  | String c s' => String (lower_ascii c) (lower s')
  end.

(** [k in s] for strings. *)
Fixpoint contains (k s : string) : bool :=
  String.prefix k s ||
  match s with
  | EmptyString => false
  | String _ s' => contains k s'
  end.

Section Reminders.

(** Python's [float(s)] on a string; [None] when it raises. *)
Variable float_of_string : string → option Qc.

(** [float(v)]; [None] when it raises. *)
Definition to_float (v : value) : option Qc :=
  match v with
  | VBool b => Some (if b then 1 else 0)
  | VNum q => Some q
  | VStr s => float_of_string s
  | VNone | VArr _ | VObj _ => None
  end.

Definition float (v : value) : M Qc :=
  match to_float v with
  | Some q => mret q
  | None => raise
  end.

Definition snooze_break (now : Qc) (seconds : Qc) : M unit :=
  set_next_break_time (now + seconds).

Definition break_reminder (settings : gmap string value) (stats : statistics)
    (env : reminder_env) : M unit :=
  if truthy (get_setting settings "break_reminder_enabled") then
    let work_minutes := stat_active_time stats / Qc_of_Z 60 in
    break_interval ← float (get_setting settings "break_interval");
    next ← get_next_break_time;
    if bool_decide (break_interval ≤ work_minutes)
       && bool_decide (next ≤ clock_check env)
    then
      show_simple_popup "Break Reminder" (BreakMessage work_minutes) "info";;
      match snooze_answer env with
      | Yes => snooze_break (clock_resolve env) (Qc_of_Z 300)
      | No =>
          set_next_break_time
            (clock_resolve env + break_interval * Qc_of_Z 60)
      | DialogRaises => mret ()
      end
    else mret ()
  else mret ().

Definition usage_warnings (settings : gmap string value) (stats : statistics)
  : M unit :=
  if truthy (get_setting settings "app_usage_warnings") then
    threshold_hours ← float (get_setting settings "entertainment_threshold");
    keywords ← get_keywords;
    for_each (stat_activities stats) (λ '(app, duration_seconds),
      let duration_hours := duration_seconds / Qc_of_Z 3600 in
      let app_l := lower app in
      if existsb (λ keyword, contains keyword app_l) keywords
         && bool_decide (threshold_hours < duration_hours)
      then show_simple_popup "Usage Alert"
             (UsageMessage duration_hours app) "warning"
      else mret ())
  else mret ().

Definition idle_warning (settings : gmap string value) (stats : statistics)
  : M unit :=
  if truthy (get_setting settings "idle_warning_enabled") then
    let idle_minutes := stat_idle_time stats / Qc_of_Z 60 in
    idle_threshold ← float (get_setting settings "idle_threshold");
    if bool_decide (idle_threshold < idle_minutes)
    then show_simple_popup "Idle Alert" (IdleMessage idle_minutes) "info"
    else mret ()
  else mret ().

Definition check_and_show_reminders (settings : gmap string value)
    (tr : tracker) (env : reminder_env) : M unit :=
  if negb (truthy (get_setting settings "reminders_enabled")) then mret ()
  else
    let stats := get_statistics (clock_stats env) tr in
    break_reminder settings stats env;;
    usage_warnings settings stats;;
    idle_warning settings stats.

End Reminders.

(** The outcome of a computation: the popups shown so far, in order, the
    manager, and whether an exception escaped. *)
Definition popups_of {A} (r : option A * (popup_manager * list popup))
  : list popup := r.2.2.
Definition manager_of {A} (r : option A * (popup_manager * list popup))
  : popup_manager := r.2.1.
Definition raised {A} (r : option A * (popup_manager * list popup))
  : bool := match r.1 with Some _ => false | None => true end.

(** The break reminders among the popups shown. *)
Definition break_reminders (ps : list popup) : list popup :=
  filter (λ p, title p = "Break Reminder") ps.

End PopupManager.

(** ** MainApplication: the parts without widgets *)

Module MainApplication.
Import ActivityTracker SettingsManager PopupManager.

(** [hours], [minutes] and [secs] of [format_duration]: Python's [//] and
    [%] round towards minus infinity. *)
Definition duration_parts (seconds : Qc) : Z * Z * Z :=
  let seconds := py_int seconds in
  let hours := (seconds `div` 3600)%Z in
  let minutes := ((seconds `mod` 3600) `div` 60)%Z in
  let secs := (seconds `mod` 60)%Z in
  (hours, minutes, secs).

Definition format_duration (seconds : Qc) : string :=
  let '(hours, minutes, secs) := duration_parts seconds in
  if bool_decide (0 < hours)%Z
  then pretty hours +:+ "h " +:+ pretty minutes +:+ "m " +:+ pretty secs +:+ "s"
  else if bool_decide (0 < minutes)%Z
  then pretty minutes +:+ "m " +:+ pretty secs +:+ "s"
  else pretty secs +:+ "s".

(** Strings hold the UTF-8 bytes of Python's text; the bytes [10xxxxxx]
    continue the code point begun before them. *)
Definition is_continuation (c : ascii) : bool :=
  bool_decide (128 ≤ nat_of_ascii c < 192)%nat.

(** The slice [s[:n]] of a string: its first [n] code points, each with
    its continuation bytes. *)
Fixpoint string_take (n : nat) (s : string) : string :=
  match s with
  | EmptyString => EmptyString
  | String c s' =>
      if is_continuation c then String c (string_take n s')
      else match n with
           | O => EmptyString
           | S n' => String c (string_take n' s')
           end
  end.

Definition newline : string := String (ascii_of_nat 10) EmptyString.

(** One line of the logs view. *)
Definition log_line (e : log_entry) : string :=
  "[" +:+ timestamp e +:+ "] " +:+ action e +:+ ": " +:+ app_name e
  +:+ " - " +:+ string_take 60 (window_title e) +:+ newline.

(** [update_logs]: the lines inserted into the logs view, top to bottom. *)
Definition update_logs (s : tracker) : list string :=
  log_line <$> reverse (slice_last 50 (daily_logs s)).

Section PopupCheck.

(** Python's [float(s)] and [int(s)] on a string; [None] when they raise. *)
Variable float_of_string : string → option Qc.
Variable int_of_string : string → option Z.



End PopupCheck.

End MainApplication.

(** * Vocabulary of the properties *)

Import PopupManager SettingsManager ActivityTracker.

(** [active_time] is the sum of the per-application durations. *)
Definition accounted (s : tracker) : Prop :=
  active_time s = PyDict.sum_values (activities s).

(** A data file whose totals agree, as [save_data] writes it from an
    accounted state; [load_data] then yields an accounted state. *)
Definition stored_accounted (d : disk) : Prop :=
  match d with
  | Content f =>
      default 0 (data_active_time f) =
      PyDict.sum_values (default [] (data_activities f))
  | Missing | Unreadable => True
  end.

(** [x] may stand before [y]: its duration is not smaller. *)
Definition desc (x y : string * Qc) : Prop := y.2 ≤ x.2.

(** The entries of duration [v], in the order of the list. *)
Definition with_duration (v : Qc) (l : list (string * Qc)) : list (string * Qc) :=
  filter (λ p, p.2 = v) l.

(** Samples that alternate between two applications: each one is a switch. *)
Definition switch_tick (i : nat) : tick :=
  {| clock := Qc_of_Z (Z.of_nat i);
     probe := Win32Window 1 1 (if Nat.even i then "editor.exe" else "shell.exe") "main";
     stamp := "2024-01-01T00:00:00";
     write := WriteOk |}.

Definition switching (n : nat) : list tick := switch_tick <$> seq 1 n.

(** Two values of the same JSON type. *)
Definition same_kind (v d : value) : bool :=
  match v, d with
  | VNone, VNone | VBool _, VBool _ | VNum _, VNum _ | VStr _, VStr _
  | VArr _, VArr _ | VObj _, VObj _ => true
  | _, _ => false
  end.

(** A computation that leaves the manager as it is and shows no break
    reminder, whether or not it raises. *)
Definition quiet {A} (m : M A) : Prop :=
  ∀ σ, manager_of (m σ) = σ.1 ∧
       ∃ new, popups_of (m σ) = (σ.2 ++ new)%list ∧ break_reminders new = [].

(** The manager after the snooze question, by the answer given. *)
Definition resolved (pm : popup_manager) (env : reminder_env) (interval : Qc)
  : popup_manager :=
  match snooze_answer env with
  | Yes => PopupMgr (clock_resolve env + Qc_of_Z 300) (entertainment_keywords pm)
  | No => PopupMgr (clock_resolve env + interval * Qc_of_Z 60)
            (entertainment_keywords pm)
  | DialogRaises => pm
  end.

(** A tracker that has spent 1900 seconds in one application. *)
Definition busy_tracker : tracker :=
  {| activities := [("editor.exe", Qc_of_Z 1900)];
     current_activity := Some "editor.exe";
     last_check_time := Qc_of_Z 2000;
     idle_time := 0;
     active_time := Qc_of_Z 1900;
     session_start := 0;
     daily_logs := [LogEntry "2024-01-01T00:00:00" "editor.exe" "main" "switched_to"];
     is_tracking := true |}.

(** The data file that [save_data] writes for [busy_tracker]. *)
Definition busy_file : disk := save_data WriteOk busy_tracker Missing.

(** A sample of the editor taken at clock reading [t]. *)
Definition editor_tick (t : Z) : tick :=
  {| clock := Qc_of_Z t;
     probe := Win32Window 1 1 "editor.exe" "notes";
     stamp := "2024-01-01T00:10:00";
     write := WriteOk |}.

(** A sample of another application taken at clock reading [t]. *)
Definition shell_tick (t : Z) : tick :=
  {| clock := Qc_of_Z t;
     probe := Win32Window 1 1 "shell.exe" "build";
     stamp := "2024-01-01T00:20:00";
     write := WriteOk |}.

(** A settings file that sets two options and leaves [idle_threshold] out. *)
Definition partial_settings : gmap string value :=
  {[ "break_interval" := VNum (Qc_of_Z 45); "reminders_enabled" := VBool false ]}.

(** The seconds a sample contributes: the time since the last sample,
    zero when the clock went back. *)
Definition elapsed (e : tick) (s : tracker) : Qc :=
  if bool_decide (clock e - last_check_time s < 0) then 0
  else clock e - last_check_time s.

(** The clock readings of the samples never go back, starting from [t]. *)
Fixpoint clocks_ascend (t : Qc) (es : list tick) : Prop :=
  match es with
  | [] => True
  | e :: es' => t ≤ clock e ∧ clocks_ascend (clock e) es'
  end.

(** The clock reading of the last sample, [t] when there is none. *)
Definition last_clock (t : Qc) (es : list tick) : Qc :=
  default t (clock <$> last es).

(** The log as sampling from an empty log builds it: every entry is a
    switch, neighbours name different applications, and the last entry
    names the current application. *)
Definition log_follows_switches (s : tracker) : Prop :=
  Forall (λ e, action e = "switched_to") (daily_logs s) ∧
  (∀ i e1 e2, daily_logs s !! i = Some e1 → daily_logs s !! S i = Some e2 →
              app_name e1 ≠ app_name e2) ∧
  (∀ e, last (daily_logs s) = Some e → current_activity s = Some (app_name e)).

(** An application is flagged when its lowercase name contains a keyword
    and its hours exceed the threshold. *)
Definition flagged (keywords : list string) (threshold_hours : Qc)
    (item : string * Qc) : bool :=
  existsb (λ keyword, contains keyword (lower item.1)) keywords
  && bool_decide (threshold_hours < item.2 / Qc_of_Z 3600).

Definition usage_alert (item : string * Qc) : popup :=
  Popup "Usage Alert" (UsageMessage (item.2 / Qc_of_Z 3600) item.1) "warning".

(** [k] occurs in [s]. *)
Definition occurs_in (k s : string) : Prop :=
  ∃ before after, s = before +:+ k +:+ after.

(** The break reminder is due: reminders and break reminders are on, the
    minutes of activity have reached the interval, and the clock has reached
    [next_break_time]. *)
Definition break_due (fos : string → option Qc) (settings : gmap string value)
    (tr : tracker) (env : reminder_env) (pm : popup_manager) : Prop :=
  truthy (get_setting settings "reminders_enabled") = true ∧
  truthy (get_setting settings "break_reminder_enabled") = true ∧
  ∃ interval,
    to_float fos (get_setting settings "break_interval") = Some interval ∧
    interval ≤ active_time tr / Qc_of_Z 60 ∧
    next_break_time pm ≤ clock_check env.

(** From state [σ] the computation keeps the manager and shows no break
    reminder. *)
Definition quiet_at {A} (m : M A) (σ : popup_manager * list popup) : Prop :=
  manager_of (m σ) = σ.1 ∧
  ∃ new, popups_of (m σ) = (σ.2 ++ new)%list ∧ break_reminders new = [].

Definition break_popup (tr : tracker) : popup :=
  Popup "Break Reminder" (BreakMessage (active_time tr / Qc_of_Z 60)) "info".

Definition idle_popup (tr : tracker) : popup :=
  Popup "Idle Alert" (IdleMessage (idle_time tr / Qc_of_Z 60)) "info".

(** A sample without a determinable window taken at clock reading [t]. *)
Definition idle_tick (t : Z) : tick :=
  {| clock := Qc_of_Z t;
     probe := NoWin32;
     stamp := "2024-01-01T00:30:00";
     write := WriteOk |}.


(** A reminder check at clock reading 2000, the snooze question answered
    at 2010. *)
Definition check_env (a : answer) : reminder_env :=
  ReminderEnv (Qc_of_Z 2000) (Qc_of_Z 2000) (Qc_of_Z 2010) a.

(** Settings whose break interval is no number. *)
Definition broken_settings : gmap string value :=
  {[ "break_interval" := VStr "soon" ]}.

(** A data file that holds [activities] and no [active_time], which
    [load_data] reads with its defaults. *)
Definition file_without_totals : disk :=
  Content {| data_activities := Some [("editor.exe", Qc_of_Z 15 / Qc_of_Z 2)];
             data_idle_time := None;
             data_active_time := None;
             data_session_start := None;
             data_daily_logs := None |}.

(** A tracker that has spent two and a half hours in a browser. *)
Definition browsing_tracker : tracker :=
  {| activities := [("Chrome.exe", Qc_of_Z 9000); ("editor.exe", Qc_of_Z 1900)];
     current_activity := Some "editor.exe";
     last_check_time := Qc_of_Z 11000;
     idle_time := 0;
     active_time := Qc_of_Z 10900;
     session_start := 0;
     daily_logs := [];
     is_tracking := true |}.

(** * Properties *)

(** ** Dictionaries *)

Lemma fold_left_Qcplus_acc (l : list Qc) (a : Qc) :
  fold_left Qcplus l a = a + fold_left Qcplus l 0.
Proof.
  revert a. induction l as [|x l IH]; intros a; simpl.
  - ring.
  - rewrite (IH (a + x)), (IH (0 + x)). ring.
Qed.

Lemma sum_values_cons (k : string) (v : Qc) (d : PyDict.t Qc) :
  PyDict.sum_values ((k, v) :: d) = v + PyDict.sum_values d.
Proof.
  unfold PyDict.sum_values. simpl.
  rewrite fold_left_Qcplus_acc. ring.
Qed.

Lemma sum_values_iadd (k : string) (delta : Qc) (d : PyDict.t Qc) :
  PyDict.sum_values (PyDict.iadd k delta d) = PyDict.sum_values d + delta.
Proof.
  induction d as [|[k' v] d IH]; simpl.
  - rewrite sum_values_cons. unfold PyDict.sum_values. simpl. ring.
  - case_bool_decide; rewrite !sum_values_cons; [|rewrite IH]; ring.
Qed.

Lemma get_iadd_eq (k : string) (delta : Qc) (d : PyDict.t Qc) :
  PyDict.get k (PyDict.iadd k delta d) = Some (PyDict.value_of k d + delta).
Proof.
  unfold PyDict.value_of.
  induction d as [|[k' v] d IH]; simpl.
  - by rewrite bool_decide_eq_true_2.
  - case_bool_decide as Hk; simpl.
    + by rewrite bool_decide_eq_true_2.
    + by rewrite bool_decide_eq_false_2.
Qed.

Lemma get_iadd_ne (k k0 : string) (delta : Qc) (d : PyDict.t Qc) :
  k0 ≠ k → PyDict.get k0 (PyDict.iadd k delta d) = PyDict.get k0 d.
Proof.
  intros Hne. induction d as [|[k' v] d IH]; simpl.
  - by rewrite bool_decide_eq_false_2.
  - case_bool_decide as Hk; simpl; [subst k'|].
    + by rewrite bool_decide_eq_false_2.
    + by rewrite IH.
Qed.

(** Adding zero changes no entry; it creates the key when it is new. *)
Lemma iadd_zero (k : string) (d : PyDict.t Qc) :
  PyDict.iadd k 0 d =
  match PyDict.get k d with Some _ => d | None => (d ++ [(k, 0)])%list end.
Proof.
  induction d as [|[k' v] d IH]; simpl.
  - by rewrite Qcplus_0_r.
  - case_bool_decide as Hk.
    + by rewrite Qcplus_0_r.
    + rewrite IH. by destruct (PyDict.get k d).
Qed.

Lemma get_app_fresh {V} (k a : string) (v : V) (d : PyDict.t V) :
  PyDict.get k d = None →
  PyDict.get a (d ++ [(k, v)])%list =
  if bool_decide (a = k) then Some v else PyDict.get a d.
Proof.
  induction d as [|[k' v'] d IH]; simpl; [done|].
  destruct (bool_decide_reflect (k = k')) as [Hk|Hk]; [done|]. intros Hd.
  destruct (bool_decide_reflect (a = k')) as [Ha|Ha]; [subst k'|by apply IH].
  by rewrite bool_decide_eq_false_2 by congruence.
Qed.

(** ** The accounting invariant *)

Lemma load_data_accounted (s : tracker) (d : disk) :
  accounted s → stored_accounted d → accounted (load_data s d).
Proof. by destruct d. Qed.

Lemma init_accounted (t_check t_start : Qc) (d : disk) :
  stored_accounted d → accounted (init t_check t_start d).
Proof. intros Hd. by apply load_data_accounted. Qed.

Lemma clear_data_accounted (now : Qc) (w : write_outcome) (s : tracker) (d : disk) :
  accounted (clear_data now w s d).1.
Proof. done. Qed.

Lemma track_activity_fst (e : tick) (s : tracker) (d d' : disk) :
  (track_activity e s d).1 = (track_activity e s d').1.
Proof. unfold track_activity. by repeat case_match. Qed.

Lemma track_activity_accounted (e : tick) (s : tracker) (d : disk) :
  accounted s → accounted (track_activity e s d).1.
Proof.
  unfold accounted, track_activity. intros Hs.
  destruct (get_active_window (probe e)) as [[app title]|];
    case_bool_decide; simpl; rewrite ?sum_values_iadd; by rewrite ?Hs.
Qed.

Lemma save_data_accounted (w : write_outcome) (s : tracker) (d : disk) :
  accounted s → stored_accounted d → stored_accounted (save_data w s d).
Proof. by destruct w. Qed.

Lemma run_accounted (es : list tick) (w : tracker * disk) :
  accounted w.1 → accounted (run es w).1.
Proof.
  revert w. induction es as [|e es IH]; intros [s d] Hs; [done|].
  apply IH. by apply track_activity_accounted.
Qed.

(** ** Sampling *)

Lemma Qcminus_neg (x y : Qc) : x < y → x - y < 0.
Proof.
  intros H. apply (Qcplus_lt_mono_r _ _ (- y)) in H.
  by rewrite Qcplus_opp_r in H.
Qed.

(** The tracker after a sample, spelled out for a determinable window. *)
Lemma track_activity_window (e : tick) (s : tracker) (d : disk) (app title : string) :
  get_active_window (probe e) = Some (app, title) →
  let delta := if bool_decide (clock e - last_check_time s < 0) then 0
               else clock e - last_check_time s in
  let switched := bool_decide (current_activity s ≠ Some app) in
  (track_activity e s d).1 =
  {| activities := PyDict.iadd app delta (activities s);
     current_activity := if switched then Some app else current_activity s;
     last_check_time := clock e;
     idle_time := idle_time s;
     active_time := active_time s + delta;
     session_start := session_start s;
     daily_logs :=
       if switched
       then daily_logs s ++ [LogEntry (stamp e) app title "switched_to"]
       else daily_logs s;
     is_tracking := is_tracking s |}.
Proof. intros Hw. unfold track_activity. rewrite Hw. by case_match. Qed.

(** The tracker after a sample without a determinable window. *)
Lemma track_activity_idle (e : tick) (s : tracker) (d : disk) :
  get_active_window (probe e) = None →
  let delta := if bool_decide (clock e - last_check_time s < 0) then 0
               else clock e - last_check_time s in
  (track_activity e s d).1 =
  {| activities := activities s;
     current_activity := current_activity s;
     last_check_time := clock e;
     idle_time := idle_time s + delta;
     active_time := active_time s;
     session_start := session_start s;
     daily_logs := daily_logs s;
     is_tracking := is_tracking s |}.
Proof. intros Hw. unfold track_activity. rewrite Hw. by case_match. Qed.

(** C1, as stated, fails: a tracker created on a data file that holds
    [activities] and no [active_time] starts with [active_time] zero
    against a sum of 7.5, and a sample keeps the gap. *)
Lemma hydrated_totals_counterexample :
  ¬ accounted
      (run (take 1 [editor_tick 5])
         (ActivityTracker.init 0 0 file_without_totals, file_without_totals)).1.
Proof.
  unfold accounted. intros H. apply (f_equal this) in H.
  vm_compute in H. discriminate.
Qed.

(** C1, amended. From a tracker that was just created with nothing to
    load (no data file, or an unreadable one) or with a data file whose
    stored [active_time] is the sum of its stored [activities] (as
    [save_data] writes it), or that was just cleared, after every call of a
    sequence of [track_activity] calls [active_time] equals the sum of the
    values of [activities]. *)
Theorem active_time_is_sum_of_activities (es : list tick) (n : nat) :
  (∀ t_check t_start d,
     stored_accounted d →
     accounted (run (take n es) (init t_check t_start d, d)).1) ∧
  (∀ now w s d, accounted (run (take n es) (clear_data now w s d)).1).
Proof.
  split.
  - intros t_check t_start d Hd. apply run_accounted. by apply init_accounted.
  - intros now w s d. apply run_accounted, clear_data_accounted.
Qed.

(** C4. When the clock reads earlier than [last_check_time], the sample
    contributes nothing: [active_time], [idle_time] and the duration of
    every application are unchanged (a window seen for the first time gets
    an entry of value zero), and [last_check_time] becomes the new reading. *)
Theorem backward_clock_is_clamped (e : tick) (s : tracker) (d : disk) :
  clock e < last_check_time s →
  let s' := (track_activity e s d).1 in
  active_time s' = active_time s ∧
  idle_time s' = idle_time s ∧
  (∀ a v, PyDict.get a (activities s) = Some v →
          PyDict.get a (activities s') = Some v) ∧
  (∀ a, PyDict.value_of a (activities s') = PyDict.value_of a (activities s)) ∧
  (activities s' = activities s ∨
   ∃ app, PyDict.get app (activities s) = None ∧
          activities s' = (activities s ++ [(app, 0)])%list) ∧
  last_check_time s' = clock e.
Proof.
  intros Hback s'. subst s'. apply Qcminus_neg in Hback.
  destruct (get_active_window (probe e)) as [[app title]|] eqn:Hw.
  - rewrite (track_activity_window _ _ _ _ _ Hw).
    rewrite bool_decide_eq_true_2 by done. simpl.
    rewrite iadd_zero, Qcplus_0_r.
    destruct (PyDict.get app (activities s)) as [v0|] eqn:Hget.
    + repeat split; eauto.
    + repeat split; [| |eauto].
      * intros a v Ha. rewrite get_app_fresh by done.
        case_bool_decide; [congruence|done].
      * intros a. unfold PyDict.value_of. rewrite get_app_fresh by done.
        case_bool_decide; [subst a; by rewrite Hget|done].
  - rewrite (track_activity_idle _ _ _ Hw).
    rewrite bool_decide_eq_true_2 by done. simpl.
    rewrite Qcplus_0_r. repeat split; eauto.
Qed.

(** C5. For a determinable window: when its application is the current
    one, [daily_logs] is unchanged; otherwise exactly one entry with action
    [switched_to] is appended and the application becomes the current one. *)
Theorem switch_event_emission (e : tick) (s : tracker) (d : disk) (app title : string) :
  get_active_window (probe e) = Some (app, title) →
  let s' := (track_activity e s d).1 in
  (current_activity s = Some app → daily_logs s' = daily_logs s) ∧
  (current_activity s ≠ Some app →
     daily_logs s' =
       (daily_logs s ++ [LogEntry (stamp e) app title "switched_to"])%list) ∧
  current_activity s' = Some app.
Proof.
  intros Hw s'. subst s'. rewrite (track_activity_window _ _ _ _ _ Hw). simpl.
  case_bool_decide as Hcur; repeat split; done.
Qed.

(** ** Clearing *)

(** C9. [clear_data] empties [activities] and [daily_logs], zeroes
    [active_time] and [idle_time], sets [session_start] to the clock
    reading and saves that state at once (a successful write leaves exactly
    the cleared state on disk); clearing again at the same reading changes
    nothing. *)
Theorem clear_data_resets_and_persists (now : Qc) (w : write_outcome)
    (s : tracker) (d : disk) :
  let r := clear_data now w s d in
  activities r.1 = [] ∧
  active_time r.1 = 0 ∧
  idle_time r.1 = 0 ∧
  daily_logs r.1 = [] ∧
  session_start r.1 = now ∧
  r.2 = save_data w r.1 d ∧
  (clear_data now WriteOk s d).2 =
    Content (Data (Some []) (Some 0) (Some 0) (Some now) (Some [])) ∧
  clear_data now w r.1 r.2 = r.
Proof. repeat split. by destruct w. Qed.


(** ** Sorting by duration *)

Lemma insert_desc_perm (x : string * Qc) (l : list (string * Qc)) :
  insert_desc x l ≡ₚ x :: l.
Proof.
  induction l as [|y l IH]; simpl; [done|].
  case_bool_decide; [|done].
  rewrite IH. apply Permutation_swap.
Qed.

Lemma sorted_desc_perm (l : list (string * Qc)) : sorted_desc l ≡ₚ l.
Proof.
  induction l as [|x l IH]; simpl; [done|].
  by rewrite insert_desc_perm, IH.
Qed.

Lemma insert_desc_sorted (x : string * Qc) (l : list (string * Qc)) :
  StronglySorted desc l → StronglySorted desc (insert_desc x l).
Proof.
  induction l as [|y l IH]; simpl; intros Hl.
  - by repeat constructor.
  - apply StronglySorted_cons in Hl as [Hy Hl].
    case_bool_decide as Hxy.
    + apply StronglySorted_cons. split; [|by apply IH].
      rewrite insert_desc_perm. constructor; [|done].
      by apply Qclt_le_weak.
    + apply Qcnot_lt_le in Hxy.
      apply StronglySorted_cons. split.
      * constructor; [done|].
        eapply Forall_impl; [exact Hy|].
        intros z Hz. unfold desc in *. by etrans.
      * by apply StronglySorted_cons.
Qed.

Lemma sorted_desc_sorted (l : list (string * Qc)) :
  StronglySorted desc (sorted_desc l).
Proof.
  induction l as [|x l IH]; simpl; [constructor|].
  by apply insert_desc_sorted.
Qed.

(** Insertion passes only entries of strictly larger duration, so entries
    of equal duration keep their order. *)
Lemma insert_desc_with_duration (v : Qc) (x : string * Qc) (l : list (string * Qc)) :
  with_duration v (insert_desc x l) = with_duration v (x :: l).
Proof.
  unfold with_duration.
  induction l as [|y l IH]; simpl; [done|].
  case_bool_decide as Hxy; [|done].
  rewrite (filter_cons _ y), IH, !(filter_cons _ x), (filter_cons _ y).
  repeat case_decide; try done.
  exfalso. apply (Qclt_not_eq _ _ Hxy). congruence.
Qed.

Lemma sorted_desc_stable (v : Qc) (l : list (string * Qc)) :
  with_duration v (sorted_desc l) = with_duration v l.
Proof.
  induction l as [|x l IH]; simpl; [done|].
  rewrite insert_desc_with_duration. unfold with_duration in *.
  by rewrite !(filter_cons _ x), IH.
Qed.

Lemma with_duration_head (x : string * Qc) (l : list (string * Qc)) :
  with_duration x.2 (x :: l) = x :: with_duration x.2 l.
Proof. unfold with_duration. by rewrite filter_cons_True. Qed.

Lemma head_duration_le (x y : string * Qc) (l1 l2 : list (string * Qc)) :
  StronglySorted desc (x :: l1) →
  (∀ v, with_duration v (x :: l1) = with_duration v (y :: l2)) →
  y.2 ≤ x.2.
Proof.
  intros Hs Heq.
  assert (y ∈ x :: l1) as Hy.
  { assert (y ∈ with_duration y.2 (x :: l1)) as Hin.
    { rewrite Heq, with_duration_head. apply list_elem_of_here. }
    unfold with_duration in Hin. by apply list_elem_of_filter in Hin as [_ ?]. }
  apply StronglySorted_cons in Hs as [Hall _].
  apply elem_of_cons in Hy as [->|Hy]; [done|].
  rewrite Forall_forall in Hall. by apply Hall.
Qed.

(** A list sorted by descending duration is determined by its entries of
    each duration: descending order and stability leave no choice. *)
Lemma stable_desc_eq (l1 l2 : list (string * Qc)) :
  StronglySorted desc l1 → StronglySorted desc l2 →
  (∀ v, with_duration v l1 = with_duration v l2) →
  l1 = l2.
Proof.
  revert l2. induction l1 as [|x l1 IH]; intros [|y l2] Hs1 Hs2 Heq.
  - done.
  - specialize (Heq y.2). by rewrite with_duration_head in Heq.
  - specialize (Heq x.2). by rewrite with_duration_head in Heq.
  - assert (x.2 = y.2) as Hxy.
    { apply Qcle_antisym.
      - by eapply head_duration_le.
      - by eapply head_duration_le. }
    assert (x = y) as ->.
    { pose proof (Heq x.2) as H.
      rewrite with_duration_head, Hxy, with_duration_head in H. congruence. }
    f_equal. apply IH.
    + by apply StronglySorted_cons in Hs1 as [_ ?].
    + by apply StronglySorted_cons in Hs2 as [_ ?].
    + intros v. specialize (Heq v). unfold with_duration in *.
      rewrite !(filter_cons _ y) in Heq. case_decide; congruence.
Qed.

(** Every stable sort by descending duration returns [sorted_desc]. *)
Lemma sorted_desc_unique (l l' : list (string * Qc)) :
  StronglySorted desc l' →
  (∀ v, with_duration v l' = with_duration v l) →
  l' = sorted_desc l.
Proof.
  intros Hs Hst. apply stable_desc_eq; [done|apply sorted_desc_sorted|].
  intros v. by rewrite sorted_desc_stable.
Qed.

Lemma slice_to_nat {A} (k : nat) (l : list A) : slice_to (Z.of_nat k) l = take k l.
Proof.
  unfold slice_to. rewrite bool_decide_eq_false_2 by lia. by rewrite Nat2Z.id.
Qed.

(** C6. The top applications are the first entries of the list of
    [(application, duration)] items sorted by descending duration, entries
    of equal duration staying in first-seen (dictionary) order;
    [get_statistics] takes the first five. With durations [A:100], [B:100],
    [C:50] seen in that order, the top two are [A] and [B]. *)
Theorem top_apps_sorted_stable (now : Qc) (s : tracker) (k : nat) :
  let sorted := sorted_desc (activities s) in
  stat_top_apps (get_statistics now s) = take 5 sorted ∧
  get_top_apps (Z.of_nat k) s = take k sorted ∧
  sorted ≡ₚ activities s ∧
  StronglySorted desc sorted ∧
  (∀ v, with_duration v sorted = with_duration v (activities s)) ∧
  (∀ cur check idle active start logs tracking,
     (get_top_apps 2
        (Tracker [("A", Qc_of_Z 100); ("B", Qc_of_Z 100); ("C", Qc_of_Z 50)]
           cur check idle active start logs tracking)).*1 = ["A"; "B"]).
Proof.
  repeat split.
  - apply (slice_to_nat k).
  - apply sorted_desc_perm.
  - apply sorted_desc_sorted.
  - intros v. apply sorted_desc_stable.
Qed.

(** ** Persistence *)

Lemma slice_last_length {A} (n : nat) (l : list A) :
  (length (slice_last n l) ≤ n)%nat.
Proof. unfold slice_last. rewrite length_drop. lia. Qed.

Lemma slice_last_short {A} (n : nat) (l : list A) :
  (length l ≤ n)%nat → slice_last n l = l.
Proof. intros Hl. unfold slice_last. by replace (length l - n)%nat with 0%nat by lia. Qed.

Lemma slice_last_suffix {A} (n : nat) (l : list A) :
  l = (take (length l - n) l ++ slice_last n l)%list.
Proof. unfold slice_last. by rewrite take_drop. Qed.

Lemma slice_last_evicts {A} (n : nat) (oldest : A) (l : list A) (newest : A) :
  length (oldest :: l) = n →
  slice_last n (oldest :: l ++ [newest]) = (l ++ [newest])%list.
Proof.
  intros Hn. unfold slice_last. simpl in *. rewrite length_app. simpl.
  by replace (S (length l + 1) - n)%nat with 1%nat by lia.
Qed.

(** A sample appends at most one entry to the log and removes none. *)
Lemma track_activity_appends (e : tick) (s : tracker) (d : disk) :
  ∃ new, daily_logs (track_activity e s d).1 = (daily_logs s ++ new)%list
         ∧ (length new ≤ 1)%nat.
Proof.
  destruct (get_active_window (probe e)) as [[app title]|] eqn:Hw.
  - rewrite (track_activity_window _ _ _ _ _ Hw). simpl. case_bool_decide.
    + eexists [_]. split; [done|simpl; lia].
    + exists []. split; [by rewrite app_nil_r|simpl; lia].
  - rewrite (track_activity_idle _ _ _ Hw). simpl.
    exists []. split; [by rewrite app_nil_r|simpl; lia].
Qed.

(** C2, as stated, fails: after 1001 switches from a new tracker the
    in-memory log holds 1001 entries. *)
Lemma event_log_bound_counterexample :
  ¬ (length (daily_logs (run (switching 1001) (init 0 0 Missing, Missing)).1)
     ≤ 1000)%nat.
Proof.
  assert (length (daily_logs (run (switching 1001) (init 0 0 Missing, Missing)).1)
          = 1001%nat) as -> by (vm_compute; reflexivity).
  lia.
Qed.

(** C2, amended. The saved log holds at most 1000 entries: [save_data]
    writes the last 1000 entries of [daily_logs] in their order (all of
    them when there are at most 1000; with 1001, all but the oldest). In
    memory, a sample only appends to [daily_logs], at most one entry, and
    [load_data] takes the stored list as it is. *)
Theorem saved_log_holds_last_1000 (e : tick) (s : tracker) (d : disk) :
  let saved := slice_last 1000 (daily_logs s) in
  save_data WriteOk s d = Content (to_data s) ∧
  data_daily_logs (to_data s) = Some saved ∧
  (length saved ≤ 1000)%nat ∧
  daily_logs s = (take (length (daily_logs s) - 1000) (daily_logs s) ++ saved)%list ∧
  ((length (daily_logs s) ≤ 1000)%nat → saved = daily_logs s) ∧
  (∀ oldest l newest,
     daily_logs s = (oldest :: l ++ [newest])%list →
     length (oldest :: l) = 1000%nat →
     saved = (l ++ [newest])%list) ∧
  (∃ new, daily_logs (track_activity e s d).1 = (daily_logs s ++ new)%list
          ∧ (length new ≤ 1)%nat) ∧
  (∀ f, daily_logs (load_data s (Content f)) = default [] (data_daily_logs f)).
Proof.
  repeat split.
  - apply slice_last_length.
  - apply slice_last_suffix.
  - apply slice_last_short.
  - intros oldest l newest -> Hn. by apply slice_last_evicts.
  - apply track_activity_appends.
Qed.

(** C8, as stated, fails: a log of 1001 entries does not come back from
    the file. *)
Lemma save_load_log_counterexample :
  let s := (run (switching 1001) (init 0 0 Missing, Missing)).1 in
  daily_logs (load_data (init 0 0 Missing) (save_data WriteOk s Missing))
  ≠ daily_logs s.
Proof.
  intros s H. apply (f_equal length) in H. vm_compute in H. discriminate.
Qed.

(** C8, amended. After a successful [save_data], [load_data] (into any
    tracker) restores [activities] with its order, [idle_time],
    [active_time], [session_start] and the last 1000 entries of
    [daily_logs] in their order: the whole log when it has at most 1000
    entries. *)
Theorem save_then_load (s s0 : tracker) (d : disk) :
  let s' := load_data s0 (save_data WriteOk s d) in
  activities s' = activities s ∧
  idle_time s' = idle_time s ∧
  active_time s' = active_time s ∧
  session_start s' = session_start s ∧
  daily_logs s' = slice_last 1000 (daily_logs s) ∧
  ((length (daily_logs s) ≤ 1000)%nat → daily_logs s' = daily_logs s).
Proof. repeat split. simpl. apply slice_last_short. Qed.

(** ** Settings *)

Lemma lookup_load_settings (loaded : gmap string value) (k : string) :
  load_settings (Content loaded) !! k =
  match loaded !! k with
  | Some v => Some v
  | None => default_settings !! k
  end.
Proof.
  unfold load_settings, dict_update.
  destruct (loaded !! k) as [v|] eqn:Hk.
  - by apply lookup_union_Some_l.
  - by rewrite lookup_union_r.
Qed.

(** C7, as stated, fails: a loaded value of the wrong type (a string where
    the default is a number) is kept; the default does not win. *)
Lemma settings_wrong_shape_counterexample :
  ¬ (∀ (loaded : gmap string value) k v d,
       loaded !! k = Some v → default_settings !! k = Some d →
       same_kind v d = false →
       load_settings (Content loaded) !! k = Some d).
Proof.
  intros H.
  specialize (H {["idle_threshold" := VStr "soon"]} "idle_threshold"
                (VStr "soon") (VNum (Qc_of_Z 15)) eq_refl eq_refl eq_refl).
  vm_compute in H. discriminate.
Qed.

(** C7, amended. [load_settings] lays the loaded mapping over the defaults:
    a key absent from the file gets its default, a key present keeps the
    loaded value whatever its type, and a missing or unreadable file gives
    the defaults. A file without [idle_threshold] yields 15 for it and
    keeps every loaded value. *)
Theorem load_settings_merges_over_defaults (loaded : gmap string value) :
  (∀ k, loaded !! k = None →
        load_settings (Content loaded) !! k = default_settings !! k) ∧
  (∀ k v, loaded !! k = Some v → load_settings (Content loaded) !! k = Some v) ∧
  (loaded !! "idle_threshold" = None →
     load_settings (Content loaded) !! "idle_threshold" = Some (VNum (Qc_of_Z 15))
     ∧ get_setting (load_settings (Content loaded)) "idle_threshold"
       = VNum (Qc_of_Z 15)) ∧
  load_settings Missing = default_settings ∧
  load_settings Unreadable = default_settings.
Proof.
  split; [|split; [|split; [|done]]].
  - intros k Hk. by rewrite lookup_load_settings, Hk.
  - intros k v Hk. by rewrite lookup_load_settings, Hk.
  - intros Hk. split.
    + by rewrite lookup_load_settings, Hk.
    + unfold get_setting. by rewrite lookup_load_settings, Hk.
Qed.

(** ** Reminders *)

Lemma quiet_ret {A} (a : A) : quiet (mret a).
Proof. intros σ. split; [done|]. exists []. by rewrite app_nil_r. Qed.

Lemma quiet_raise {A} : quiet (@raise A).
Proof. intros σ. split; [done|]. exists []. by rewrite app_nil_r. Qed.

Lemma quiet_bind {A B} (m : M A) (k : A → M B) :
  quiet m → (∀ a, quiet (k a)) → quiet (m ≫= k).
Proof.
  intros Hm Hk σ. unfold mbind, M_bind.
  destruct (Hm σ) as (Hmgr & new & Hpop & Hnew).
  destruct (m σ) as [[a|] σ'] eqn:Hmσ; unfold manager_of, popups_of in *;
    simpl in *.
  - destruct (Hk a σ') as (Hmgr' & new' & Hpop' & Hnew').
    unfold manager_of, popups_of in *. split; [congruence|].
    exists (new ++ new')%list. split.
    + by rewrite Hpop', Hpop, app_assoc.
    + unfold break_reminders in *. by rewrite filter_app, Hnew, Hnew'.
  - split; [done|]. by exists new.
Qed.

Lemma quiet_show (title : string) (body : message) (kind : string) :
  title ≠ "Break Reminder" → quiet (show_simple_popup title body kind).
Proof.
  intros Ht σ. split; [done|]. eexists [_]. split; [done|].
  unfold break_reminders. by rewrite filter_cons_False.
Qed.

Lemma quiet_get_keywords : quiet get_keywords.
Proof. intros σ. split; [done|]. exists []. by rewrite app_nil_r. Qed.

Lemma quiet_float (fos : string → option Qc) (v : value) : quiet (float fos v).
Proof. unfold float. destruct (to_float fos v); [apply quiet_ret|apply quiet_raise]. Qed.

Lemma quiet_for_each {A} (l : list A) (f : A → M unit) :
  (∀ x, quiet (f x)) → quiet (for_each l f).
Proof.
  intros Hf. induction l as [|x l IH]; simpl; [apply quiet_ret|].
  apply quiet_bind; [apply Hf|by intros _].
Qed.

Lemma quiet_usage_warnings (fos : string → option Qc)
    (settings : gmap string value) (stats : statistics) :
  quiet (usage_warnings fos settings stats).
Proof.
  unfold usage_warnings. case_match; [|apply quiet_ret].
  apply quiet_bind; [apply quiet_float|intros threshold].
  apply quiet_bind; [apply quiet_get_keywords|intros keywords].
  apply quiet_for_each. intros [app duration].
  case_match; [by apply quiet_show|apply quiet_ret].
Qed.

Lemma quiet_idle_warning (fos : string → option Qc)
    (settings : gmap string value) (stats : statistics) :
  quiet (idle_warning fos settings stats).
Proof.
  unfold idle_warning. case_match; [|apply quiet_ret].
  apply quiet_bind; [apply quiet_float|intros threshold].
  case_match; [by apply quiet_show|apply quiet_ret].
Qed.

(** An eligible break reminder is shown once and then rescheduled. *)
Lemma break_reminder_eligible (fos : string → option Qc)
    (settings : gmap string value) (stats : statistics) (env : reminder_env)
    (pm : popup_manager) (shown : list popup) (interval : Qc) :
  truthy (get_setting settings "break_reminder_enabled") = true →
  to_float fos (get_setting settings "break_interval") = Some interval →
  interval ≤ stat_active_time stats / Qc_of_Z 60 →
  next_break_time pm ≤ clock_check env →
  break_reminder fos settings stats env (pm, shown) =
  (Some (),
   (resolved pm env interval,
    (shown ++ [Popup "Break Reminder"
                 (BreakMessage (stat_active_time stats / Qc_of_Z 60)) "info"])%list)).
Proof.
  intros Hen Hfl Hwork Hnext. unfold break_reminder, float, resolved.
  rewrite Hen, Hfl. unfold mbind, M_bind, mret, M_ret. simpl.
  rewrite !bool_decide_eq_true_2 by done. simpl.
  destruct (snooze_answer env), pm; done.
Qed.

(** What follows the break reminder shows no break reminder and keeps the
    manager. *)
Lemma quiet_after_break (fos : string → option Qc)
    (settings : gmap string value) (stats : statistics) :
  quiet (usage_warnings fos settings stats ;; idle_warning fos settings stats).
Proof.
  apply quiet_bind; [apply quiet_usage_warnings|].
  intros _. apply quiet_idle_warning.
Qed.

(** C3, as stated, fails: with [reminders_enabled] off nothing is shown,
    although the break reminder is enabled, the interval is reached and the
    eligible time has passed. *)
Lemma break_reminder_master_switch_counterexample :
  ¬ (∀ (settings : gmap string value) (tr : tracker) (env : reminder_env)
       (pm : popup_manager) (interval : Qc),
       truthy (get_setting settings "break_reminder_enabled") = true →
       to_float (λ _, None) (get_setting settings "break_interval")
         = Some interval →
       interval ≤ active_time tr / Qc_of_Z 60 →
       next_break_time pm ≤ clock_check env →
       length (break_reminders
                 (popups_of (check_and_show_reminders (λ _, None) settings tr
                               env (pm, [])))) = 1%nat).
Proof.
  intros H.
  specialize (H (<["reminders_enabled" := VBool false]> default_settings)
                (Tracker [("editor.exe", Qc_of_Z 1900)] (Some "editor.exe")
                   (Qc_of_Z 2000) 0 (Qc_of_Z 1900) 0 [] true)
                (ReminderEnv (Qc_of_Z 2000) (Qc_of_Z 2000) (Qc_of_Z 2010) No)
                PopupManager.init (Qc_of_Z 30)).
  assert (0%nat = 1%nat) as Hbad; [|discriminate].
  apply H; [reflexivity|reflexivity|compute_done|compute_done].
Qed.

(** C3, amended. When [reminders_enabled] and [break_reminder_enabled] are
    on, [active_time / 60] has reached [break_interval] and the clock has
    reached [next_break_time], one check shows exactly one break reminder;
    answering the snooze question with no sets [next_break_time] to the
    clock plus [break_interval * 60], answering yes sets it to the clock
    plus 300. *)
Theorem break_reminder_fires_and_reschedules (fos : string → option Qc)
    (settings : gmap string value) (tr : tracker) (env : reminder_env)
    (pm : popup_manager) (interval : Qc) :
  truthy (get_setting settings "reminders_enabled") = true →
  truthy (get_setting settings "break_reminder_enabled") = true →
  to_float fos (get_setting settings "break_interval") = Some interval →
  interval ≤ active_time tr / Qc_of_Z 60 →
  next_break_time pm ≤ clock_check env →
  let r := check_and_show_reminders fos settings tr env (pm, []) in
  break_reminders (popups_of r) =
    [Popup "Break Reminder" (BreakMessage (active_time tr / Qc_of_Z 60)) "info"] ∧
  (snooze_answer env = No →
     next_break_time (manager_of r) = clock_resolve env + interval * Qc_of_Z 60) ∧
  (snooze_answer env = Yes →
     next_break_time (manager_of r) = clock_resolve env + Qc_of_Z 300).
Proof.
  intros Hon Hen Hfl Hwork Hnext r.
  set (stats := get_statistics (clock_stats env) tr).
  set (shown := Popup "Break Reminder"
                  (BreakMessage (stat_active_time stats / Qc_of_Z 60)) "info").
  assert (r = (usage_warnings fos settings stats ;;
               idle_warning fos settings stats)
                (resolved pm env interval, [shown])) as ->.
  { subst r. unfold check_and_show_reminders. rewrite Hon. simpl.
    fold stats. unfold mbind at 1. unfold M_bind at 1.
    by rewrite (break_reminder_eligible fos settings stats env pm [] interval). }
  destruct (quiet_after_break fos settings stats
              (resolved pm env interval, [shown]))
    as (Hmgr & new & Hpop & Hnew).
  rewrite Hmgr, Hpop. simpl. split; [|split].
  - unfold break_reminders in *.
    rewrite filter_cons_True by done. by rewrite Hnew.
  - intros Hans. unfold resolved. by rewrite Hans.
  - intros Hans. unfold resolved. by rewrite Hans.
Qed.

(** ** The theorems at concrete inputs *)

Lemma active_time_is_sum_witness :
  stored_accounted busy_file ∧
  accounted (run (take 2 (switching 3)) (ActivityTracker.init 0 0 busy_file, busy_file)).1.
Proof.
  assert (stored_accounted busy_file) as Hfile
    by (simpl; apply Qc_is_canon; reflexivity).
  split; [exact Hfile|].
  exact (proj1 (active_time_is_sum_of_activities (switching 3) 2) 0 0 busy_file Hfile).
Defined.

Lemma backward_clock_witness :
  clock (shell_tick 1990) < last_check_time busy_tracker ∧
  active_time (track_activity (shell_tick 1990) busy_tracker Missing).1
    = Qc_of_Z 1900 ∧
  last_check_time (track_activity (shell_tick 1990) busy_tracker Missing).1
    = Qc_of_Z 1990.
Proof.
  assert (clock (shell_tick 1990) < last_check_time busy_tracker) as Hback
    by reflexivity.
  split; [exact Hback|].
  destruct (backward_clock_is_clamped (shell_tick 1990) busy_tracker Missing Hback)
    as (Hactive & _ & _ & _ & _ & Hlast).
  split; [exact Hactive|exact Hlast].
Defined.

Lemma switch_event_witness :
  daily_logs (track_activity (editor_tick 2005) busy_tracker Missing).1
    = daily_logs busy_tracker ∧
  daily_logs (track_activity (shell_tick 2005) busy_tracker Missing).1
    = (daily_logs busy_tracker
       ++ [LogEntry "2024-01-01T00:20:00" "shell.exe" "build" "switched_to"])%list.
Proof.
  split.
  - apply (switch_event_emission (editor_tick 2005) busy_tracker Missing
             "editor.exe" "notes" eq_refl). reflexivity.
  - apply (switch_event_emission (shell_tick 2005) busy_tracker Missing
             "shell.exe" "build" eq_refl). discriminate.
Defined.


Lemma saved_log_witness :
  slice_last 1000 (daily_logs busy_tracker) = daily_logs busy_tracker.
Proof.
  apply (saved_log_holds_last_1000 (editor_tick 2005) busy_tracker Missing).
  simpl. lia.
Defined.

Lemma save_then_load_witness :
  daily_logs (load_data (ActivityTracker.init 0 0 Missing) (save_data WriteOk busy_tracker Missing))
    = daily_logs busy_tracker.
Proof.
  apply (save_then_load busy_tracker (ActivityTracker.init 0 0 Missing) Missing).
  simpl. lia.
Defined.

Lemma load_settings_witness :
  load_settings (Content partial_settings) !! "idle_threshold"
    = Some (VNum (Qc_of_Z 15)) ∧
  load_settings (Content partial_settings) !! "break_interval"
    = Some (VNum (Qc_of_Z 45)).
Proof.
  destruct (load_settings_merges_over_defaults partial_settings)
    as (_ & Hkept & Hidle & _).
  split.
  - apply Hidle. reflexivity.
  - apply Hkept. reflexivity.
Defined.

Lemma break_reminder_witness :
  break_reminders
    (popups_of (check_and_show_reminders (λ _, None) default_settings
                  busy_tracker
                  (ReminderEnv (Qc_of_Z 2000) (Qc_of_Z 2000) (Qc_of_Z 2010) No)
                  (PopupManager.init, [])))
  = [Popup "Break Reminder" (BreakMessage (Qc_of_Z 1900 / Qc_of_Z 60)) "info"].
Proof.
  apply (break_reminder_fires_and_reschedules (λ _, None) default_settings
           busy_tracker
           (ReminderEnv (Qc_of_Z 2000) (Qc_of_Z 2000) (Qc_of_Z 2010) No)
           PopupManager.init (Qc_of_Z 30));
    [reflexivity|reflexivity|reflexivity|compute_done|compute_done].
Defined.

(** * Further properties *)

Import MainApplication.

(** ** Sampling: where the time goes *)

Lemma elapsed_nonneg (e : tick) (s : tracker) : 0 ≤ elapsed e s.
Proof.
  unfold elapsed. case_bool_decide as Hneg; [done|].
  by apply Qcnot_lt_le.
Qed.

Lemma elapsed_forward (e : tick) (s : tracker) :
  last_check_time s ≤ clock e → elapsed e s = clock e - last_check_time s.
Proof.
  intros Hle. unfold elapsed. case_bool_decide as Hneg; [|done].
  exfalso. apply (Qcplus_lt_mono_r _ _ (last_check_time s)) in Hneg.
  rewrite Qcplus_0_l in Hneg.
  replace (clock e - last_check_time s + last_check_time s) with (clock e)
    in Hneg by ring.
  by apply Qclt_not_le in Hneg.
Qed.

Lemma value_of_iadd (a k : string) (delta : Qc) (d : PyDict.t Qc) :
  PyDict.value_of a (PyDict.iadd k delta d) =
  PyDict.value_of a d + (if bool_decide (a = k) then delta else 0).
Proof.
  case_bool_decide as Hak.
  - subst a. unfold PyDict.value_of at 1. by rewrite get_iadd_eq.
  - unfold PyDict.value_of. rewrite get_iadd_ne by done. by rewrite Qcplus_0_r.
Qed.

Lemma keys_iadd (k : string) (delta : Qc) (d : PyDict.t Qc) :
  PyDict.keys (PyDict.iadd k delta d) =
  match PyDict.get k d with
  | Some _ => PyDict.keys d
  | None => (PyDict.keys d ++ [k])%list
  end.
Proof.
  unfold PyDict.keys. induction d as [|[k' v] d IH]; csimpl; [done|].
  case_bool_decide as Hk; csimpl; [done|].
  rewrite IH. by destruct (PyDict.get k d).
Qed.

Lemma get_None_keys {V} (k : string) (d : PyDict.t V) :
  PyDict.get k d = None ↔ k ∉ PyDict.keys d.
Proof.
  unfold PyDict.keys. induction d as [|[k' v] d IH]; csimpl.
  - split; [intros _; apply not_elem_of_nil|done].
  - rewrite not_elem_of_cons. case_bool_decide as Hk.
    + split; [done|]. intros [Hne _]. done.
    + rewrite IH. split; [by split|by intros [_ ?]].
Qed.

(** X1. One sample splits the time since the last one between
    [active_time] and [idle_time]: with a determinable window all of it
    goes to [active_time], otherwise all of it goes to [idle_time] and
    [activities], the log and the current application are untouched. *)
Theorem sample_accounts_elapsed_time (e : tick) (s : tracker) (d : disk) :
  let s' := (track_activity e s d).1 in
  0 ≤ elapsed e s ∧
  active_time s' + idle_time s' = active_time s + idle_time s + elapsed e s ∧
  (is_Some (get_active_window (probe e)) →
     active_time s' = active_time s + elapsed e s ∧
     idle_time s' = idle_time s) ∧
  (get_active_window (probe e) = None →
     idle_time s' = idle_time s + elapsed e s ∧
     active_time s' = active_time s ∧
     activities s' = activities s ∧
     daily_logs s' = daily_logs s ∧
     current_activity s' = current_activity s).
Proof.
  intros s'. subst s'. split; [apply elapsed_nonneg|].
  destruct (get_active_window (probe e)) as [[app title]|] eqn:Hw.
  - rewrite (track_activity_window _ _ _ _ _ Hw). fold (elapsed e s). simpl.
    split; [ring|]. split; [done|]. intros [=].
  - rewrite (track_activity_idle _ _ _ Hw). fold (elapsed e s). simpl.
    split; [ring|]. split; [|done]. by intros [? [=]].
Qed.

(** X2. A sample of a determinable window adds the elapsed time to the
    duration of that application only; the application is appended to the
    dictionary when it is new and keeps its place otherwise. *)
Theorem sample_credits_sampled_application (e : tick) (s : tracker) (d : disk)
    (app title : string) :
  get_active_window (probe e) = Some (app, title) →
  let s' := (track_activity e s d).1 in
  PyDict.value_of app (activities s')
    = PyDict.value_of app (activities s) + elapsed e s ∧
  (∀ a, a ≠ app → PyDict.get a (activities s') = PyDict.get a (activities s)) ∧
  (app ∈ PyDict.keys (activities s) →
     PyDict.keys (activities s') = PyDict.keys (activities s)) ∧
  (app ∉ PyDict.keys (activities s) →
     PyDict.keys (activities s') = (PyDict.keys (activities s) ++ [app])%list).
Proof.
  intros Hw s'. subst s'.
  rewrite (track_activity_window _ _ _ _ _ Hw). fold (elapsed e s). simpl.
  split; [|split; [|split]].
  - by rewrite value_of_iadd, bool_decide_eq_true_2.
  - intros a Ha. by apply get_iadd_ne.
  - intros Hin. rewrite keys_iadd.
    destruct (PyDict.get app (activities s)) eqn:Hget; [done|].
    by apply get_None_keys in Hget.
  - intros Hnin. rewrite keys_iadd.
    by apply get_None_keys in Hnin as ->.
Qed.

Lemma Qcle_plus_nonneg (x delta : Qc) : 0 ≤ delta → x ≤ x + delta.
Proof.
  intros H. apply (Qcplus_le_mono_l _ _ x) in H. by rewrite Qcplus_0_r in H.
Qed.

Lemma track_activity_last_check (e : tick) (s : tracker) (d : disk) :
  last_check_time (track_activity e s d).1 = clock e.
Proof.
  destruct (get_active_window (probe e)) as [[app title]|] eqn:Hw.
  - by rewrite (track_activity_window _ _ _ _ _ Hw).
  - by rewrite (track_activity_idle _ _ _ Hw).
Qed.

Lemma run_cons (e : tick) (es : list tick) (w : tracker * disk) :
  run (e :: es) w = run es (track_activity e w.1 w.2).
Proof. done. Qed.

Lemma track_activity_grows (e : tick) (s : tracker) (d : disk) :
  let s' := (track_activity e s d).1 in
  active_time s ≤ active_time s' ∧
  idle_time s ≤ idle_time s' ∧
  (∀ a, PyDict.value_of a (activities s) ≤ PyDict.value_of a (activities s')) ∧
  PyDict.keys (activities s) `prefix_of` PyDict.keys (activities s') ∧
  daily_logs s `prefix_of` daily_logs s' ∧
  session_start s' = session_start s ∧
  is_tracking s' = is_tracking s.
Proof.
  intros s'. subst s'. pose proof (elapsed_nonneg e s) as Hpos.
  destruct (get_active_window (probe e)) as [[app title]|] eqn:Hw.
  - rewrite (track_activity_window _ _ _ _ _ Hw). fold (elapsed e s). simpl.
    split; [by apply Qcle_plus_nonneg|]. split; [done|].
    split; [|split; [|split; [|done]]].
    + intros a. rewrite value_of_iadd. apply Qcle_plus_nonneg.
      by case_bool_decide.
    + rewrite keys_iadd. destruct (PyDict.get app (activities s)); [done|].
      by apply prefix_app_r.
    + case_bool_decide; [by apply prefix_app_r|done].
  - rewrite (track_activity_idle _ _ _ Hw). fold (elapsed e s). simpl.
    split; [done|]. split; [by apply Qcle_plus_nonneg|]. done.
Qed.

(** X3. Sampling never takes anything back: over any sequence of samples
    [active_time], [idle_time] and the duration of every application do not
    decrease, applications keep their place in the dictionary, the log is
    only extended, and [session_start] stays as it was. *)
Theorem sampling_only_accumulates (es : list tick) (s : tracker) (d : disk) :
  let s' := (run es (s, d)).1 in
  active_time s ≤ active_time s' ∧
  idle_time s ≤ idle_time s' ∧
  (∀ a, PyDict.value_of a (activities s) ≤ PyDict.value_of a (activities s')) ∧
  PyDict.keys (activities s) `prefix_of` PyDict.keys (activities s') ∧
  daily_logs s `prefix_of` daily_logs s' ∧
  session_start s' = session_start s ∧
  is_tracking s' = is_tracking s.
Proof.
  revert s d. induction es as [|e es IH]; intros s d.
  - simpl. repeat split; done.
  - rewrite run_cons. simpl.
    destruct (track_activity e s d) as [s1 d1] eqn:Hstep.
    pose proof (track_activity_grows e s d) as Hs. rewrite Hstep in Hs.
    simpl in Hs. destruct Hs as (Ha & Hi & Hv & Hk & Hl & Hss & Ht).
    destruct (IH s1 d1) as (Ha' & Hi' & Hv' & Hk' & Hl' & Hss' & Ht').
    split; [exact (Qcle_trans _ _ _ Ha Ha')|].
    split; [exact (Qcle_trans _ _ _ Hi Hi')|].
    split; [intros a; exact (Qcle_trans _ _ _ (Hv a) (Hv' a))|].
    split; [by etrans|]. split; [by etrans|].
    split; congruence.
Qed.

Lemma iadd_NoDup (k : string) (delta : Qc) (d : PyDict.t Qc) :
  NoDup (PyDict.keys d) → NoDup (PyDict.keys (PyDict.iadd k delta d)).
Proof.
  intros Hd. rewrite keys_iadd.
  destruct (PyDict.get k d) eqn:Hget; [done|].
  apply get_None_keys in Hget. apply NoDup_app. split; [done|].
  split; [|apply NoDup_singleton].
  intros x Hx Hx'. apply list_elem_of_singleton in Hx'. by subst x.
Qed.

Lemma track_activity_NoDup (e : tick) (s : tracker) (d : disk) :
  NoDup (PyDict.keys (activities s)) →
  NoDup (PyDict.keys (activities (track_activity e s d).1)).
Proof.
  intros Hs. destruct (get_active_window (probe e)) as [[app title]|] eqn:Hw.
  - rewrite (track_activity_window _ _ _ _ _ Hw). simpl. by apply iadd_NoDup.
  - by rewrite (track_activity_idle _ _ _ Hw).
Qed.

(** X4. [activities] stays a dictionary: when its keys are distinct, they
    are still distinct after any sequence of samples. *)
Theorem activities_keys_stay_distinct (es : list tick) (s : tracker) (d : disk) :
  NoDup (PyDict.keys (activities s)) →
  NoDup (PyDict.keys (activities (run es (s, d)).1)).
Proof.
  revert s d. induction es as [|e es IH]; intros s d Hs; [done|].
  rewrite run_cons. simpl.
  destruct (track_activity e s d) as [s1 d1] eqn:Hstep.
  apply IH. pose proof (track_activity_NoDup e s d Hs) as H1.
  by rewrite Hstep in H1.
Qed.

Lemma sample_steps (e : tick) (s : tracker) (d : disk) :
  last_check_time (track_activity e s d).1 = clock e ∧
  active_time (track_activity e s d).1 + idle_time (track_activity e s d).1 =
    active_time s + idle_time s + elapsed e s.
Proof.
  split; [apply track_activity_last_check|].
  destruct (get_active_window (probe e)) as [[app title]|] eqn:Hw.
  - rewrite (track_activity_window _ _ _ _ _ Hw). fold (elapsed e s). simpl. ring.
  - rewrite (track_activity_idle _ _ _ Hw). fold (elapsed e s). simpl. ring.
Qed.

Lemma last_clock_cons (t : Qc) (e : tick) (es : list tick) :
  last_clock t (e :: es) = last_clock (clock e) es.
Proof. unfold last_clock. rewrite last_cons. by destruct (last es). Qed.

(** X5. When the clock never goes back, the time added to [active_time]
    and [idle_time] by a sequence of samples is the time from the old
    [last_check_time] to the last sample, whatever happened in between;
    [last_check_time] ends at the last sample. *)
Theorem samples_account_for_wall_clock (es : list tick) (s : tracker) (d : disk) :
  clocks_ascend (last_check_time s) es →
  let s' := (run es (s, d)).1 in
  last_check_time s' = last_clock (last_check_time s) es ∧
  active_time s' + idle_time s' =
    active_time s + idle_time s
    + (last_clock (last_check_time s) es - last_check_time s).
Proof.
  revert s d. induction es as [|e es IH]; intros s d Hasc.
  - simpl. unfold last_clock. simpl. split; [done|ring].
  - destruct Hasc as [Hle Hasc]. rewrite run_cons, last_clock_cons. simpl.
    destruct (sample_steps e s d) as (Hlast & Hsum).
    destruct (track_activity e s d) as [s1 d1]. simpl in *.
    rewrite <- Hlast in Hasc.
    destruct (IH s1 d1 Hasc) as [IH1 IH2].
    rewrite Hlast in IH1, IH2. split; [done|].
    rewrite IH2, Hsum, (elapsed_forward e s Hle). ring.
Qed.

(** ** The log *)

Lemma log_follows_switches_empty (s : tracker) :
  daily_logs s = [] → log_follows_switches s.
Proof.
  intros Hl. unfold log_follows_switches. rewrite Hl.
  split; [constructor|]. split; [by intros i e1 e2 ?|done].
Qed.

Lemma track_activity_follows_switches (e : tick) (s : tracker) (d : disk) :
  log_follows_switches s → log_follows_switches (track_activity e s d).1.
Proof.
  intros (Hact & Hadj & Hlast).
  destruct (get_active_window (probe e)) as [[app title]|] eqn:Hw.
  - rewrite (track_activity_window _ _ _ _ _ Hw).
    unfold log_follows_switches. simpl.
    case_bool_decide as Hcur; [|done].
    split; [|split].
    + apply Forall_app. split; [done|]. by repeat constructor.
    + intros i e1 e2 H1 H2.
      destruct (decide (S i < length (daily_logs s))%nat) as [Hlt|Hge].
      * rewrite lookup_app_l in H1 by lia. rewrite lookup_app_l in H2 by lia.
        by eapply Hadj.
      * apply lookup_lt_Some in H2 as Hlen. rewrite length_app in Hlen.
        simpl in Hlen. assert (S i = length (daily_logs s)) as Hi by lia.
        rewrite lookup_app_r in H2 by lia.
        replace (S i - length (daily_logs s))%nat with 0%nat in H2 by lia.
        injection H2 as <-. simpl.
        rewrite lookup_app_l in H1 by lia.
        assert (last (daily_logs s) = Some e1) as Hl1.
        { rewrite last_lookup. by replace (pred (length (daily_logs s))) with i by lia. }
        apply Hlast in Hl1. congruence.
    + intros e0. rewrite last_snoc. by intros [= <-].
  - by rewrite (track_activity_idle _ _ _ Hw).
Qed.

(** X6. Starting from an empty log (a new tracker without data file, or a
    cleared one), after any sequence of samples every log entry has action
    [switched_to], neighbouring entries name different applications, and
    the last entry names the current application. *)
Theorem log_records_switches (es : list tick) (s : tracker) (d : disk) :
  daily_logs s = [] →
  log_follows_switches (run es (s, d)).1.
Proof.
  intros Hl. apply log_follows_switches_empty in Hl.
  revert s d Hl. induction es as [|e es IH]; intros s d Hl; [done|].
  rewrite run_cons. simpl.
  pose proof (track_activity_follows_switches e s d Hl) as H1.
  destruct (track_activity e s d) as [s1 d1]. by apply IH.
Qed.

(** X7. A start does not restore the current application: whatever the
    data file holds, the first sample of a determinable window after
    [__init__] appends a switch entry, also when the stored log already
    ends with that application. *)
Theorem first_sample_after_start_logs_switch (t_check t_start : Qc)
    (stored d : disk) (e : tick) (app title : string) :
  get_active_window (probe e) = Some (app, title) →
  let s := ActivityTracker.init t_check t_start stored in
  current_activity s = None ∧
  daily_logs (track_activity e s d).1 =
    (daily_logs s ++ [LogEntry (stamp e) app title "switched_to"])%list.
Proof.
  intros Hw s.
  assert (current_activity s = None) as Hcur by (by destruct stored).
  split; [done|].
  rewrite (track_activity_window _ _ _ _ _ Hw). simpl.
  by rewrite Hcur, bool_decide_eq_true_2.
Qed.

(** ** Saving while sampling *)

(** X8. A sample touches the data file only when the whole seconds of the
    clock are a multiple of ten; it then saves the state it has just
    computed, and after a successful save a start restores [activities],
    [idle_time], [active_time] and [session_start] of that state. *)
Theorem sample_saves_every_tenth_second (e : tick) (s : tracker) (d : disk) :
  let r := track_activity e s d in
  ((py_int (clock e) `mod` 10 ≠ 0)%Z → r.2 = d) ∧
  ((py_int (clock e) `mod` 10 = 0)%Z → r.2 = save_data (write e) r.1 d) ∧
  ((py_int (clock e) `mod` 10 = 0)%Z → write e = WriteOk →
   ∀ t_check t_start,
     let s' := ActivityTracker.init t_check t_start r.2 in
     activities s' = activities r.1 ∧
     idle_time s' = idle_time r.1 ∧
     active_time s' = active_time r.1 ∧
     session_start s' = session_start r.1 ∧
     last_check_time s' = t_check).
Proof.
  intros r. subst r. unfold track_activity.
  split; [|split].
  - intros Hmod. by rewrite bool_decide_eq_false_2.
  - intros Hmod. by rewrite bool_decide_eq_true_2.
  - intros Hmod Hok t_check t_start. rewrite bool_decide_eq_true_2 by done.
    simpl. by rewrite Hok.
Qed.

(** X9. After a clear whose write succeeds, a start restores the cleared
    session: empty [activities] and log, zero totals, and the
    [session_start] of the clear, not the time of the start. *)
Theorem start_after_clear (now t_check t_start : Qc) (s : tracker) (d : disk) :
  ActivityTracker.init t_check t_start (clear_data now WriteOk s d).2 =
  {| activities := [];
     current_activity := None;
     last_check_time := t_check;
     idle_time := 0;
     active_time := 0;
     session_start := now;
     daily_logs := [];
     is_tracking := true |}.
Proof. done. Qed.

(** ** Statistics *)

(** X10. [total_time] of the statistics is the time since [session_start],
    and at least one second: it is 1 when less than a second has passed or
    the clock reads earlier than [session_start]. The other figures are the
    tracker's, which [get_statistics] leaves as it is. *)
Theorem statistics_total_time (now : Qc) (s : tracker) :
  let st := get_statistics now s in
  1 ≤ stat_total_time st ∧
  (1 ≤ now - session_start s → stat_total_time st = now - session_start s) ∧
  (now - session_start s ≤ 1 → stat_total_time st = 1) ∧
  stat_active_time st = active_time s ∧
  stat_idle_time st = idle_time s ∧
  stat_activities st = activities s.
Proof.
  intros st. subst st. unfold get_statistics, py_max. simpl.
  case_bool_decide as Hlt.
  - split; [by apply Qclt_le_weak|]. split; [done|]. split; [|done].
    intros Hle. by apply Qclt_not_le in Hlt.
  - apply Qcnot_lt_le in Hlt. split; [done|]. split; [|done].
    intros Hle. by apply Qcle_antisym.
Qed.

(** X11. The top applications of the statistics are entries of
    [activities], as many as there are but at most five, and no entry left
    out has a longer duration than an entry taken. *)
Theorem top_apps_dominate_the_rest (now : Qc) (s : tracker) :
  let top := stat_top_apps (get_statistics now s) in
  length top = (5 `min` length (activities s))%nat ∧
  (∀ x, x ∈ top → x ∈ activities s) ∧
  (∀ x y, x ∈ top → y ∈ activities s → y ∉ top → y.2 ≤ x.2).
Proof.
  intros top. subst top. simpl. unfold get_top_apps.
  change 5%Z with (Z.of_nat 5). rewrite slice_to_nat.
  pose proof (sorted_desc_perm (activities s)) as Hperm.
  pose proof (sorted_desc_sorted (activities s)) as Hsorted.
  split; [|split].
  - rewrite length_take. by rewrite Hperm.
  - intros x Hx. rewrite <- Hperm. by apply (subseteq_take 5).
  - intros x y Hx Hy Hny. rewrite <- Hperm in Hy.
    rewrite <- (take_drop 5 (sorted_desc (activities s))) in Hy, Hsorted.
    apply elem_of_app in Hy as [Hy|Hy]; [done|].
    by apply (StronglySorted_app_1_elem_of desc _ _ x y Hsorted).
Qed.

(** ** Settings *)

(** X12. A setting that was set is what [get_setting] returns, also for a
    key that is no option of the application; the other keys answer as
    before. The write does not matter for the settings in memory. *)
Theorem set_then_get_setting (w : write_outcome) (key : string) (v : value)
    (settings : gmap string value) (f : file (gmap string value)) :
  let settings' := (set_setting w key v settings f).1 in
  get_setting settings' key = v ∧
  (∀ k, k ≠ key → get_setting settings' k = get_setting settings k).
Proof.
  simpl. unfold get_setting. split.
  - by rewrite lookup_insert_eq.
  - intros k Hk. by rewrite lookup_insert_ne.
Qed.

Lemma get_setting_load (loaded : gmap string value) (k : string) :
  get_setting (load_settings (Content loaded)) k = get_setting loaded k.
Proof.
  unfold get_setting. rewrite lookup_load_settings.
  destruct (loaded !! k); [done|]. by destruct (default_settings !! k).
Qed.

(** X13. Settings that were saved come back: after a successful
    [save_settings], [load_settings] answers every key as the saved
    settings did. *)
Theorem saved_settings_come_back (settings : gmap string value)
    (f : file (gmap string value)) (k : string) :
  get_setting (load_settings (save_settings WriteOk settings f)) k
  = get_setting settings k.
Proof. apply get_setting_load. Qed.

(** X14. [set_setting] saves at once: after a successful write a start
    finds the new value. When opening the file fails the file is as before
    and only the settings in memory have the new value. *)
Theorem set_setting_persists (key : string) (v : value)
    (settings : gmap string value) (f : file (gmap string value)) :
  get_setting (load_settings (set_setting WriteOk key v settings f).2) key = v ∧
  (set_setting OpenFails key v settings f).2 = f ∧
  get_setting (set_setting OpenFails key v settings f).1 key = v.
Proof.
  split; [|split].
  - change (get_setting (load_settings (Content (<[key:=v]> settings))) key = v).
    rewrite get_setting_load. unfold get_setting.
    by rewrite lookup_insert_eq.
  - done.
  - simpl. unfold get_setting. by rewrite lookup_insert_eq.
Qed.

(** ** Reminders: when a break reminder is shown *)

Lemma quiet_at_unchanged {A} (m : M A) (o : option A)
    (σ : popup_manager * list popup) :
  m σ = (o, σ) → quiet_at m σ.
Proof.
  intros Hm. unfold quiet_at. rewrite Hm. split; [done|].
  exists []. by rewrite app_nil_r.
Qed.

Lemma quiet_at_bind {A B} (m : M A) (k : A → M B) (o : option A)
    (σ : popup_manager * list popup) :
  m σ = (o, σ) → (∀ a, quiet (k a)) → quiet_at (m ≫= k) σ.
Proof.
  intros Hm Hk. unfold quiet_at, mbind, M_bind. rewrite Hm.
  destruct o as [a|]; [apply Hk|].
  split; [done|]. exists []. by rewrite app_nil_r.
Qed.

(** Either the break reminder is not due and the check neither shows one
    nor touches the manager, or it is due and the check continues from the
    rescheduled manager with the reminder shown. *)
Lemma check_cases (fos : string → option Qc) (settings : gmap string value)
    (tr : tracker) (env : reminder_env) (pm : popup_manager)
    (shown : list popup) :
  let stats := get_statistics (clock_stats env) tr in
  (¬ break_due fos settings tr env pm ∧
   quiet_at (check_and_show_reminders fos settings tr env) (pm, shown)) ∨
  (∃ interval,
     truthy (get_setting settings "reminders_enabled") = true ∧
     truthy (get_setting settings "break_reminder_enabled") = true ∧
     to_float fos (get_setting settings "break_interval") = Some interval ∧
     interval ≤ active_time tr / Qc_of_Z 60 ∧
     next_break_time pm ≤ clock_check env ∧
     check_and_show_reminders fos settings tr env (pm, shown) =
       (usage_warnings fos settings stats ;; idle_warning fos settings stats)
         (resolved pm env interval, (shown ++ [break_popup tr])%list)).
Proof.
  intros stats. unfold check_and_show_reminders. fold stats.
  destruct (truthy (get_setting settings "reminders_enabled")) eqn:Hon; simpl.
  2: { left. split; [intros (H1 & _); congruence|]. by eapply quiet_at_unchanged. }
  destruct (truthy (get_setting settings "break_reminder_enabled")) eqn:Hen.
  2: { left. split; [intros (_ & H2 & _); congruence|].
       eapply quiet_at_bind; [|intros _; apply quiet_after_break].
       unfold break_reminder. by rewrite Hen. }
  destruct (to_float fos (get_setting settings "break_interval"))
    as [interval|] eqn:Hfl.
  2: { left. split; [intros (_ & _ & i & H3 & _); congruence|].
       eapply quiet_at_bind; [|intros _; apply quiet_after_break].
       unfold break_reminder, float. by rewrite Hen, Hfl. }
  destruct (decide (interval ≤ active_time tr / Qc_of_Z 60)) as [Hwork|Hwork].
  2: { left. split.
       { intros (_ & _ & i & Hi & Hw & _). apply Hwork. congruence. }
       eapply quiet_at_bind; [|intros _; apply quiet_after_break].
       unfold break_reminder, float. rewrite Hen, Hfl.
       unfold mbind, M_bind, mret, M_ret. simpl.
       by rewrite (bool_decide_eq_false_2 (interval ≤ _)). }
  destruct (decide (next_break_time pm ≤ clock_check env)) as [Hnext|Hnext].
  2: { left. split.
       { by intros (_ & _ & i & _ & _ & Hn). }
       eapply quiet_at_bind; [|intros _; apply quiet_after_break].
       unfold break_reminder, float. rewrite Hen, Hfl.
       unfold mbind, M_bind, mret, M_ret. simpl.
       rewrite (bool_decide_eq_false_2 (next_break_time pm ≤ _)) by done.
       by rewrite andb_false_r. }
  right. exists interval. repeat (split; [done|]).
  unfold mbind at 1. unfold M_bind at 1.
  by rewrite (break_reminder_eligible fos settings stats env pm shown interval).
Qed.

Lemma resolved_keywords (pm : popup_manager) (env : reminder_env) (interval : Qc) :
  entertainment_keywords (resolved pm env interval) = entertainment_keywords pm.
Proof. unfold resolved. by destruct (snooze_answer env). Qed.

Lemma check_not_due_quiet (fos : string → option Qc)
    (settings : gmap string value) (tr : tracker) (env : reminder_env)
    (pm : popup_manager) (shown : list popup) :
  ¬ break_due fos settings tr env pm →
  quiet_at (check_and_show_reminders fos settings tr env) (pm, shown).
Proof.
  intros Hnot.
  destruct (check_cases fos settings tr env pm shown)
    as [[_ Hq]|(i & Hon & Hen & Hfl & Hw & Hn & _)]; [done|].
  exfalso. apply Hnot. by repeat (split || exists i).
Qed.

(** X15. A check shows a break reminder only when one is due: otherwise
    (reminders or break reminders off, interval not reached, clock before
    [next_break_time], or an interval that is no number) no break reminder
    is among the popups and the manager is as before. *)
Theorem no_break_reminder_unless_due (fos : string → option Qc)
    (settings : gmap string value) (tr : tracker) (env : reminder_env)
    (pm : popup_manager) (shown : list popup) :
  ¬ break_due fos settings tr env pm →
  let r := check_and_show_reminders fos settings tr env (pm, shown) in
  manager_of r = pm ∧
  break_reminders (popups_of r) = break_reminders shown.
Proof.
  intros Hnot r. subst r.
  destruct (check_not_due_quiet fos settings tr env pm shown Hnot)
    as (Hmgr & new & Hpop & Hnew).
  split; [done|]. rewrite Hpop. unfold break_reminders in *.
  by rewrite filter_app, Hnew, app_nil_r.
Qed.

(** X16. Whatever the settings and the tracker, one check shows at most one
    break reminder, never changes the keywords, and leaves
    [next_break_time] as it is when it shows no break reminder. *)
Theorem check_shows_at_most_one_break_reminder (fos : string → option Qc)
    (settings : gmap string value) (tr : tracker) (env : reminder_env)
    (pm : popup_manager) :
  let r := check_and_show_reminders fos settings tr env (pm, []) in
  (length (break_reminders (popups_of r)) ≤ 1)%nat ∧
  entertainment_keywords (manager_of r) = entertainment_keywords pm ∧
  (break_reminders (popups_of r) = [] → manager_of r = pm).
Proof.
  intros r. subst r.
  destruct (check_cases fos settings tr env pm [])
    as [[_ (Hmgr & new & Hpop & Hnew)]|(i & _ & _ & _ & _ & _ & Heq)].
  - rewrite Hpop, Hmgr. simpl. rewrite Hnew. simpl.
    split; [lia|]. done.
  - rewrite Heq.
    destruct (quiet_after_break fos settings
                (get_statistics (clock_stats env) tr)
                (resolved pm env i, ([] ++ [break_popup tr])%list))
      as (Hmgr & new & Hpop & Hnew).
    rewrite Hpop, Hmgr. simpl. unfold break_reminders in *.
    rewrite filter_cons_True by done. rewrite Hnew. simpl.
    split; [lia|]. split; [apply resolved_keywords|]. intros [=].
Qed.

(** X17. When the snooze question raises, the break reminder has been
    shown but [next_break_time] is not moved: the manager is as before. *)
Theorem failed_snooze_dialog_keeps_schedule (fos : string → option Qc)
    (settings : gmap string value) (tr : tracker) (env : reminder_env)
    (pm : popup_manager) :
  break_due fos settings tr env pm →
  snooze_answer env = DialogRaises →
  let r := check_and_show_reminders fos settings tr env (pm, []) in
  break_reminders (popups_of r) = [break_popup tr] ∧
  manager_of r = pm.
Proof.
  intros Hdue Hans r. subst r.
  destruct (check_cases fos settings tr env pm [])
    as [[Hnot _]|(i & _ & _ & _ & _ & _ & Heq)]; [done|].
  rewrite Heq.
  destruct (quiet_after_break fos settings
              (get_statistics (clock_stats env) tr)
              (resolved pm env i, ([] ++ [break_popup tr])%list))
    as (Hmgr & new & Hpop & Hnew).
  rewrite Hpop, Hmgr. simpl. unfold break_reminders in *.
  rewrite filter_cons_True by done. rewrite Hnew.
  split; [done|]. unfold resolved. by rewrite Hans.
Qed.

(** X18. Snoozing works: after a due reminder was answered with yes, a
    later check whose clock is before the answer time plus 300 seconds
    shows no break reminder and keeps the manager, whatever the settings
    and the tracker then are; after a no the same holds up to the answer
    time plus the interval in seconds. *)
Theorem snoozed_reminder_stays_silent (fos : string → option Qc)
    (settings settings' : gmap string value) (tr tr' : tracker)
    (env env' : reminder_env) (pm : popup_manager) (interval : Qc) :
  truthy (get_setting settings "reminders_enabled") = true →
  truthy (get_setting settings "break_reminder_enabled") = true →
  to_float fos (get_setting settings "break_interval") = Some interval →
  interval ≤ active_time tr / Qc_of_Z 60 →
  next_break_time pm ≤ clock_check env →
  clock_check env' <
    clock_resolve env
    + match snooze_answer env with
      | Yes => Qc_of_Z 300
      | No => interval * Qc_of_Z 60
      | DialogRaises => 0
      end →
  snooze_answer env ≠ DialogRaises →
  let r := check_and_show_reminders fos settings tr env (pm, []) in
  let r' := check_and_show_reminders fos settings' tr' env'
              (manager_of r, popups_of r) in
  manager_of r' = manager_of r ∧
  break_reminders (popups_of r') = break_reminders (popups_of r).
Proof.
  intros Hon Hen Hfl Hwork Hnext Hearly Hans r r'.
  assert (manager_of r = resolved pm env interval) as Hmgr.
  { subst r.
    destruct (check_cases fos settings tr env pm [])
      as [[Hnot _]|(i & _ & _ & Hfl' & _ & _ & Heq)].
    - exfalso. apply Hnot. by repeat (split || exists interval).
    - rewrite Heq. assert (i = interval) as -> by congruence.
      apply quiet_after_break. }
  assert (¬ break_due fos settings' tr' env' (manager_of r)) as Hnot.
  { intros (_ & _ & i & _ & _ & Hn). rewrite Hmgr in Hn.
    apply (Qclt_not_le _ _ Hearly). unfold resolved in Hn.
    by destruct (snooze_answer env). }
  destruct (check_not_due_quiet fos settings' tr' env' (manager_of r)
              (popups_of r) Hnot) as (Hmgr' & new & Hpop & Hnew).
  subst r'. split; [done|]. rewrite Hpop. unfold break_reminders in *.
  simpl. by rewrite filter_app, Hnew, app_nil_r.
Qed.

(** X19. A break interval that [float] rejects stops the whole check: with
    reminders and break reminders on, the exception escapes before
    anything is shown, so usage and idle alerts are not shown either. *)
Theorem unusable_break_interval_stops_check (fos : string → option Qc)
    (settings : gmap string value) (tr : tracker) (env : reminder_env)
    (σ : popup_manager * list popup) :
  truthy (get_setting settings "reminders_enabled") = true →
  truthy (get_setting settings "break_reminder_enabled") = true →
  to_float fos (get_setting settings "break_interval") = None →
  check_and_show_reminders fos settings tr env σ = (None, σ).
Proof.
  intros Hon Hen Hfl. unfold check_and_show_reminders. rewrite Hon. simpl.
  unfold mbind at 1. unfold M_bind at 1.
  unfold break_reminder, float. by rewrite Hen, Hfl.
Qed.

(** ** Reminders: what a check shows *)

Lemma for_each_show_flagged (keywords : list string) (threshold : Qc)
    (items : list (string * Qc)) (pm : popup_manager) (shown : list popup) :
  for_each items (λ '(app, duration_seconds),
    let duration_hours := duration_seconds / Qc_of_Z 3600 in
    let app_l := lower app in
    if existsb (λ keyword, contains keyword app_l) keywords
       && bool_decide (threshold < duration_hours)
    then show_simple_popup "Usage Alert"
           (UsageMessage duration_hours app) "warning"
    else mret ()) (pm, shown) =
  (Some (),
   (pm, (shown ++ (usage_alert <$>
                     filter (λ item, flagged keywords threshold item = true)
                       items))%list)).
Proof.
  revert shown. induction items as [|[app dur] items IH]; intros shown.
  - simpl. by rewrite app_nil_r.
  - cbn [for_each]. unfold mbind at 1. unfold M_bind at 1.
    destruct (flagged keywords threshold (app, dur)) eqn:Hflag.
    + rewrite filter_cons_True by done.
      unfold flagged in Hflag. cbn [fst snd] in Hflag. cbv zeta.
      rewrite Hflag. cbn. rewrite IH. by rewrite <- app_assoc.
    + rewrite filter_cons_False by (by rewrite Hflag).
      unfold flagged in Hflag. cbn [fst snd] in Hflag. cbv zeta.
      rewrite Hflag. cbn. by rewrite IH.
Qed.

Lemma usage_warnings_spec (fos : string → option Qc)
    (settings : gmap string value) (stats : statistics) (threshold : Qc)
    (pm : popup_manager) (shown : list popup) :
  truthy (get_setting settings "app_usage_warnings") = true →
  to_float fos (get_setting settings "entertainment_threshold") = Some threshold →
  usage_warnings fos settings stats (pm, shown) =
  (Some (),
   (pm, (shown ++ (usage_alert <$>
                     filter (λ item, flagged (entertainment_keywords pm)
                                       threshold item = true)
                       (stat_activities stats)))%list)).
Proof.
  intros Hon Hfl. unfold usage_warnings, float. rewrite Hon, Hfl.
  unfold mbind at 1. unfold M_bind at 1. cbn [mret M_ret].
  unfold mbind at 1. unfold M_bind at 1. cbn [get_keywords fst].
  apply for_each_show_flagged.
Qed.

Lemma idle_warning_spec (fos : string → option Qc)
    (settings : gmap string value) (stats : statistics) (threshold : Qc)
    (pm : popup_manager) (shown : list popup) :
  truthy (get_setting settings "idle_warning_enabled") = true →
  to_float fos (get_setting settings "idle_threshold") = Some threshold →
  idle_warning fos settings stats (pm, shown) =
  (Some (),
   (pm, (shown ++
         if bool_decide (threshold < stat_idle_time stats / Qc_of_Z 60)
         then [Popup "Idle Alert"
                 (IdleMessage (stat_idle_time stats / Qc_of_Z 60)) "info"]
         else [])%list)).
Proof.
  intros Hon Hfl. unfold idle_warning, float. rewrite Hon, Hfl.
  unfold mbind, M_bind. cbn [mret M_ret].
  case_bool_decide; [done|]. cbn. by rewrite app_nil_r.
Qed.

Lemma break_reminder_spec (fos : string → option Qc)
    (settings : gmap string value) (stats : statistics) (env : reminder_env)
    (interval : Qc) (pm : popup_manager) (shown : list popup) :
  truthy (get_setting settings "break_reminder_enabled") = true →
  to_float fos (get_setting settings "break_interval") = Some interval →
  break_reminder fos settings stats env (pm, shown) =
  if bool_decide (interval ≤ stat_active_time stats / Qc_of_Z 60)
     && bool_decide (next_break_time pm ≤ clock_check env)
  then (Some (),
        (resolved pm env interval,
         (shown ++ [Popup "Break Reminder"
                      (BreakMessage (stat_active_time stats / Qc_of_Z 60))
                      "info"])%list))
  else (Some (), (pm, shown)).
Proof.
  intros Hen Hfl.
  destruct (bool_decide (interval ≤ stat_active_time stats / Qc_of_Z 60)
            && bool_decide (next_break_time pm ≤ clock_check env)) eqn:Hdue.
  - apply andb_true_iff in Hdue as [H1 H2].
    apply bool_decide_eq_true_1 in H1, H2.
    by apply break_reminder_eligible.
  - unfold break_reminder, float. rewrite Hen, Hfl.
    unfold mbind, M_bind, mret, M_ret. cbn [fst get_next_break_time].
    by rewrite Hdue.
Qed.

(** X20. With every kind of reminder on and thresholds that are numbers,
    one check shows, in this order: the break reminder when it is due, one
    usage alert for each flagged application in dictionary order, and the
    idle alert when the idle minutes exceed the threshold; it does not
    raise. *)
Theorem check_shows_break_then_usage_then_idle (fos : string → option Qc)
    (settings : gmap string value) (tr : tracker) (env : reminder_env)
    (pm : popup_manager) (interval usage_threshold idle_threshold : Qc) :
  truthy (get_setting settings "reminders_enabled") = true →
  truthy (get_setting settings "break_reminder_enabled") = true →
  truthy (get_setting settings "app_usage_warnings") = true →
  truthy (get_setting settings "idle_warning_enabled") = true →
  to_float fos (get_setting settings "break_interval") = Some interval →
  to_float fos (get_setting settings "entertainment_threshold")
    = Some usage_threshold →
  to_float fos (get_setting settings "idle_threshold") = Some idle_threshold →
  let r := check_and_show_reminders fos settings tr env (pm, []) in
  raised r = false ∧
  popups_of r =
    ((if bool_decide (interval ≤ active_time tr / Qc_of_Z 60)
         && bool_decide (next_break_time pm ≤ clock_check env)
      then [break_popup tr] else [])
     ++ (usage_alert <$>
           filter (λ item, flagged (entertainment_keywords pm)
                             usage_threshold item = true) (activities tr))
     ++ (if bool_decide (idle_threshold < idle_time tr / Qc_of_Z 60)
         then [idle_popup tr] else []))%list.
Proof.
  intros Hon Hbreak Husage Hidle Hfb Hfu Hfi r.
  set (stats := get_statistics (clock_stats env) tr).
  set (due := bool_decide (interval ≤ active_time tr / Qc_of_Z 60)
              && bool_decide (next_break_time pm ≤ clock_check env)).
  assert (r =
    (Some (),
     (if due then resolved pm env interval else pm,
      ((if due then [break_popup tr] else [])
       ++ (usage_alert <$>
             filter (λ item, flagged (entertainment_keywords pm)
                               usage_threshold item = true) (activities tr))
       ++ (if bool_decide (idle_threshold < idle_time tr / Qc_of_Z 60)
           then [idle_popup tr] else []))%list))) as ->; [|done].
  subst r. unfold check_and_show_reminders. rewrite Hon. cbn [negb].
  fold stats. unfold mbind at 1. unfold M_bind at 1.
  rewrite (break_reminder_spec fos settings stats env interval pm [])
    by done.
  change (stat_active_time stats) with (active_time tr). fold due.
  destruct due.
  - unfold mbind at 1. unfold M_bind at 1.
    rewrite (usage_warnings_spec fos settings stats usage_threshold) by done.
    rewrite (idle_warning_spec fos settings stats idle_threshold) by done.
    rewrite resolved_keywords. by rewrite <- !app_assoc.
  - unfold mbind at 1. unfold M_bind at 1.
    rewrite (usage_warnings_spec fos settings stats usage_threshold) by done.
    rewrite (idle_warning_spec fos settings stats idle_threshold) by done.
    by rewrite <- !app_assoc.
Qed.

Lemma append_cons (c : ascii) (s t : string) :
  String c s +:+ t = String c (s +:+ t).
Proof. done. Qed.

Lemma prefix_spec (k s : string) :
  String.prefix k s = true ↔ ∃ after, s = k +:+ after.
Proof.
  revert s. induction k as [|a k IH]; intros s.
  - split; [intros _; by exists s|intros _; by destruct s].
  - destruct s as [|b s]; simpl.
    + split; [done|]. intros [after H]. by rewrite append_cons in H.
    + destruct (ascii_dec a b) as [->|Hab].
      * rewrite IH. split; intros [after H]; exists after;
          rewrite append_cons in *; congruence.
      * split; [done|]. intros [after H]. rewrite append_cons in H. congruence.
Qed.

Lemma contains_spec (k s : string) : contains k s = true ↔ occurs_in k s.
Proof.
  unfold occurs_in. induction s as [|c s IH].
  - cbn [contains]. rewrite orb_false_r, prefix_spec. split.
    + intros [after H]. by exists "", after.
    + intros (before & after & H). destruct before as [|c' before].
      * by exists after.
      * by rewrite append_cons in H.
  - cbn [contains]. rewrite orb_true_iff, prefix_spec, IH. split.
    + intros [[after H]|(before & after & H)].
      * by exists "", after.
      * exists (String c before), after. by rewrite append_cons, H.
    + intros (before & after & H). destruct before as [|c' before].
      * left. by exists after.
      * right. exists before, after. rewrite append_cons in H. congruence.
Qed.

(** An application is flagged exactly when a keyword occurs in its
    lowercased name and its hours are above the threshold. *)
Lemma flagged_spec (keywords : list string) (threshold : Qc)
    (item : string * Qc) :
  flagged keywords threshold item = true ↔
  (∃ keyword, keyword ∈ keywords ∧ occurs_in keyword (lower item.1)) ∧
  threshold < item.2 / Qc_of_Z 3600.
Proof.
  unfold flagged. rewrite andb_true_iff, bool_decide_eq_true, existsb_exists.
  split; intros [(k & Hk & Hc) Hth]; (split; [|done]); exists k.
  - split; [by apply list_elem_of_In|by apply contains_spec].
  - split; [by apply list_elem_of_In|by apply contains_spec].
Qed.

(** The popups of a check with every kind of reminder on and thresholds
    that are numbers. *)
Lemma check_popups (fos : string → option Qc)
    (settings : gmap string value) (tr : tracker) (env : reminder_env)
    (pm : popup_manager) (interval usage_threshold idle_threshold : Qc) :
  truthy (get_setting settings "reminders_enabled") = true →
  truthy (get_setting settings "break_reminder_enabled") = true →
  truthy (get_setting settings "app_usage_warnings") = true →
  truthy (get_setting settings "idle_warning_enabled") = true →
  to_float fos (get_setting settings "break_interval") = Some interval →
  to_float fos (get_setting settings "entertainment_threshold")
    = Some usage_threshold →
  to_float fos (get_setting settings "idle_threshold") = Some idle_threshold →
  ∃ first final,
    popups_of (check_and_show_reminders fos settings tr env (pm, [])) =
      (first
       ++ (usage_alert <$>
             filter (λ item, flagged (entertainment_keywords pm)
                               usage_threshold item = true) (activities tr))
       ++ final)%list ∧
    Forall (λ p, title p ≠ "Usage Alert") first ∧
    Forall (λ p, title p ≠ "Usage Alert") final.
Proof.
  intros Hon Hbreak Husage Hidle Hfb Hfu Hfi.
  set (stats := get_statistics (clock_stats env) tr).
  unfold check_and_show_reminders. rewrite Hon. cbn [negb].
  fold stats. unfold mbind at 1. unfold M_bind at 1.
  rewrite (break_reminder_spec fos settings stats env interval pm [])
    by done.
  destruct (bool_decide (interval ≤ stat_active_time stats / Qc_of_Z 60)
            && bool_decide (next_break_time pm ≤ clock_check env)).
  - unfold mbind at 1. unfold M_bind at 1.
    rewrite (usage_warnings_spec fos settings stats usage_threshold) by done.
    rewrite (idle_warning_spec fos settings stats idle_threshold) by done.
    rewrite resolved_keywords.
    eexists [_], _. split; [unfold popups_of; cbn [snd fst];
                            by rewrite <- !app_assoc|].
    split; [by repeat constructor|]. case_bool_decide; by repeat constructor.
  - unfold mbind at 1. unfold M_bind at 1.
    rewrite (usage_warnings_spec fos settings stats usage_threshold) by done.
    rewrite (idle_warning_spec fos settings stats idle_threshold) by done.
    eexists [], _. split; [unfold popups_of; cbn [snd fst];
                           by rewrite <- !app_assoc|].
    split; [constructor|]. case_bool_decide; by repeat constructor.
Qed.

(** X21. With every kind of reminder on and thresholds that are numbers,
    the usage alerts that a check shows are those of the applications in
    [activities] in whose lowercased name some keyword occurs and whose
    duration in hours is above the threshold: such an application draws
    its alert, and no other usage alert is shown; at the threshold itself
    none is drawn. *)
Theorem usage_alert_when_keyword_occurs (fos : string → option Qc)
    (settings : gmap string value) (tr : tracker) (env : reminder_env)
    (pm : popup_manager) (interval usage_threshold idle_threshold : Qc)
    (p : popup) :
  truthy (get_setting settings "reminders_enabled") = true →
  truthy (get_setting settings "break_reminder_enabled") = true →
  truthy (get_setting settings "app_usage_warnings") = true →
  truthy (get_setting settings "idle_warning_enabled") = true →
  to_float fos (get_setting settings "break_interval") = Some interval →
  to_float fos (get_setting settings "entertainment_threshold")
    = Some usage_threshold →
  to_float fos (get_setting settings "idle_threshold") = Some idle_threshold →
  let r := check_and_show_reminders fos settings tr env (pm, []) in
  (p ∈ popups_of r ∧ title p = "Usage Alert") ↔
  ∃ item,
    item ∈ activities tr ∧
    p = Popup "Usage Alert" (UsageMessage (item.2 / Qc_of_Z 3600) item.1)
          "warning" ∧
    (∃ keyword, keyword ∈ entertainment_keywords pm
                ∧ occurs_in keyword (lower item.1)) ∧
    usage_threshold < item.2 / Qc_of_Z 3600.
Proof.
  intros Hon Hbreak Husage Hidle Hfb Hfu Hfi r. subst r.
  destruct (check_popups fos settings tr env pm interval usage_threshold
              idle_threshold Hon Hbreak Husage Hidle Hfb Hfu Hfi)
    as (first & final & -> & Hfirst & Hfinal).
  rewrite Forall_forall in Hfirst, Hfinal.
  rewrite !elem_of_app, list_elem_of_fmap. split.
  - intros [[Hin|[(item & -> & Hitem)|Hin]] Htitle].
    + by apply Hfirst in Hin.
    + apply list_elem_of_filter in Hitem as [Hflag Hitem].
      apply flagged_spec in Hflag as [Hkey Hth]. by exists item.
    + by apply Hfinal in Hin.
  - intros (item & Hitem & -> & Hkey & Hth). split; [|done].
    right. left. exists item. split; [done|].
    apply list_elem_of_filter. split; [|done].
    apply flagged_spec. by split.
Qed.

(** ** The display *)

(** X22. [format_duration] splits the whole seconds into hours, minutes
    below 60 and seconds below 60 that add up to them again; a duration
    below a minute is shown as seconds only, below an hour as minutes and
    seconds, and from an hour on with all three. *)
Theorem format_duration_parts (seconds : Qc) :
  let n := py_int seconds in
  let hours := (n `div` 3600)%Z in
  let minutes := ((n `mod` 3600) `div` 60)%Z in
  let secs := (n `mod` 60)%Z in
  duration_parts seconds = (hours, minutes, secs) ∧
  (n = hours * 3600 + minutes * 60 + secs)%Z ∧
  (0 ≤ minutes < 60)%Z ∧ (0 ≤ secs < 60)%Z ∧
  ((0 ≤ n < 60)%Z → format_duration seconds = pretty n +:+ "s") ∧
  ((60 ≤ n < 3600)%Z →
     format_duration seconds =
       pretty (n `div` 60)%Z +:+ "m " +:+ pretty secs +:+ "s") ∧
  ((3600 ≤ n)%Z →
     format_duration seconds =
       pretty hours +:+ "h " +:+ pretty minutes +:+ "m "
       +:+ pretty secs +:+ "s").
Proof.
  intros n hours minutes secs.
  split; [done|]. split; [subst hours minutes secs; (Z.div_mod_to_equations; lia)|].
  split; [subst minutes; (Z.div_mod_to_equations; lia)|]. split; [subst secs; (Z.div_mod_to_equations; lia)|].
  unfold format_duration, duration_parts. fold n. fold hours minutes secs.
  split; [|split].
  - intros Hn. rewrite bool_decide_eq_false_2 by (subst hours; (Z.div_mod_to_equations; lia)).
    rewrite bool_decide_eq_false_2 by (subst minutes; (Z.div_mod_to_equations; lia)).
    subst secs. by rewrite Z.mod_small by (Z.div_mod_to_equations; lia).
  - intros Hn. rewrite bool_decide_eq_false_2 by (subst hours; (Z.div_mod_to_equations; lia)).
    rewrite bool_decide_eq_true_2 by (subst minutes; (Z.div_mod_to_equations; lia)).
    subst minutes. by rewrite (Z.mod_small n 3600) by (Z.div_mod_to_equations; lia).
  - intros Hn. by rewrite bool_decide_eq_true_2 by (subst hours; (Z.div_mod_to_equations; lia)).
Qed.

(** X23. The logs view shows the 50 most recent log entries, the newest
    first: all entries, reversed, when there are at most 50. *)
Theorem logs_view_shows_newest_fifty (s : tracker) :
  update_logs s = log_line <$> take 50 (reverse (daily_logs s)) ∧
  length (update_logs s) = (50 `min` length (daily_logs s))%nat ∧
  head (update_logs s) = log_line <$> last (daily_logs s) ∧
  ((length (daily_logs s) ≤ 50)%nat →
     update_logs s = log_line <$> reverse (daily_logs s)).
Proof.
  assert (update_logs s = log_line <$> take 50 (reverse (daily_logs s))) as Heq.
  { unfold update_logs, slice_last. by rewrite take_reverse. }
  split; [done|]. rewrite Heq. split; [|split].
  - by rewrite length_fmap, length_take, length_reverse.
  - destruct (reverse (daily_logs s)) as [|e l] eqn:Hrev.
    + apply (f_equal (@head _)) in Hrev. rewrite head_reverse in Hrev.
      by rewrite Hrev.
    + apply (f_equal (@head _)) in Hrev. rewrite head_reverse in Hrev.
      by rewrite Hrev.
  - intros Hlen. rewrite take_ge; [done|]. by rewrite length_reverse.
Qed.

(** ** The reminder loop *)


(** ** The further properties at concrete inputs *)

Lemma break_due_busy (a : answer) :
  break_due (λ _, None) default_settings busy_tracker (check_env a)
    PopupManager.init.
Proof.
  split; [reflexivity|]. split; [reflexivity|].
  exists (Qc_of_Z 30). split; [reflexivity|]. split; compute_done.
Qed.

Lemma sample_accounts_elapsed_time_witness :
  idle_time (track_activity (idle_tick 2005) busy_tracker Missing).1
  = idle_time busy_tracker + elapsed (idle_tick 2005) busy_tracker.
Proof.
  apply (sample_accounts_elapsed_time (idle_tick 2005) busy_tracker Missing).
  reflexivity.
Defined.

Lemma sample_credits_witness :
  PyDict.keys (activities (track_activity (shell_tick 2005) busy_tracker Missing).1)
  = (PyDict.keys (activities busy_tracker) ++ ["shell.exe"])%list.
Proof.
  apply (sample_credits_sampled_application (shell_tick 2005) busy_tracker
           Missing "shell.exe" "build" eq_refl).
  compute_done.
Defined.

Lemma activities_keys_witness :
  NoDup (PyDict.keys (activities (run (switching 3) (busy_tracker, Missing)).1)).
Proof.
  apply (activities_keys_stay_distinct (switching 3) busy_tracker Missing).
  apply NoDup_singleton.
Defined.

Lemma samples_account_witness :
  active_time (run [editor_tick 2005; idle_tick 2010] (busy_tracker, Missing)).1
  + idle_time (run [editor_tick 2005; idle_tick 2010] (busy_tracker, Missing)).1
  = active_time busy_tracker + idle_time busy_tracker
    + (last_clock (last_check_time busy_tracker)
         [editor_tick 2005; idle_tick 2010] - last_check_time busy_tracker).
Proof.
  apply (samples_account_for_wall_clock [editor_tick 2005; idle_tick 2010]
           busy_tracker Missing).
  repeat split; compute_done.
Defined.

Lemma log_records_switches_witness :
  log_follows_switches
    (run (switching 3) ((clear_data 0 WriteOk busy_tracker Missing).1, Missing)).1.
Proof.
  apply (log_records_switches (switching 3)
           (clear_data 0 WriteOk busy_tracker Missing).1 Missing).
  reflexivity.
Defined.

Lemma first_sample_after_start_witness :
  daily_logs (track_activity (editor_tick 5)
                (ActivityTracker.init 0 0 busy_file) busy_file).1
  = (daily_logs (ActivityTracker.init 0 0 busy_file)
     ++ [LogEntry "2024-01-01T00:10:00" "editor.exe" "notes" "switched_to"])%list.
Proof.
  apply (first_sample_after_start_logs_switch 0 0 busy_file busy_file
           (editor_tick 5) "editor.exe" "notes" eq_refl).
Defined.

Lemma sample_saves_witness :
  (track_activity (editor_tick 2005) busy_tracker Missing).2 = Missing ∧
  active_time
    (ActivityTracker.init 0 0
       (track_activity (editor_tick 2010) busy_tracker Missing).2)
  = active_time (track_activity (editor_tick 2010) busy_tracker Missing).1.
Proof.
  split.
  - apply (sample_saves_every_tenth_second (editor_tick 2005) busy_tracker
             Missing). by vm_compute.
  - apply (sample_saves_every_tenth_second (editor_tick 2010) busy_tracker
             Missing); reflexivity.
Defined.

Lemma statistics_total_time_witness :
  stat_total_time (get_statistics (Qc_of_Z 2000) busy_tracker)
  = Qc_of_Z 2000 - session_start busy_tracker.
Proof.
  apply (statistics_total_time (Qc_of_Z 2000) busy_tracker). compute_done.
Defined.

Lemma top_apps_witness :
  ("editor.exe", Qc_of_Z 1900) ∈ activities busy_tracker.
Proof.
  apply (top_apps_dominate_the_rest 0 busy_tracker). apply list_elem_of_here.
Defined.

Lemma set_then_get_setting_witness :
  get_setting (set_setting WriteOk "test_key" (VStr "test_value")
                 default_settings Missing).1 "break_interval"
  = get_setting default_settings "break_interval".
Proof.
  apply (set_then_get_setting WriteOk "test_key" (VStr "test_value")
           default_settings Missing). discriminate.
Defined.

Lemma no_break_reminder_witness :
  manager_of (check_and_show_reminders (λ _, None) partial_settings
                busy_tracker (check_env No) (PopupManager.init, []))
  = PopupManager.init.
Proof.
  apply (no_break_reminder_unless_due (λ _, None) partial_settings busy_tracker
           (check_env No) PopupManager.init []).
  intros (Hon & _). discriminate Hon.
Defined.

Lemma at_most_one_break_reminder_witness :
  manager_of (check_and_show_reminders (λ _, None) partial_settings
                busy_tracker (check_env No) (PopupManager.init, []))
  = PopupManager.init.
Proof.
  apply (check_shows_at_most_one_break_reminder (λ _, None) partial_settings
           busy_tracker (check_env No) PopupManager.init).
  reflexivity.
Defined.

Lemma failed_snooze_dialog_witness :
  manager_of (check_and_show_reminders (λ _, None) default_settings
                busy_tracker (check_env DialogRaises) (PopupManager.init, []))
  = PopupManager.init.
Proof.
  apply (failed_snooze_dialog_keeps_schedule (λ _, None) default_settings
           busy_tracker (check_env DialogRaises) PopupManager.init
           (break_due_busy DialogRaises) eq_refl).
Defined.

Lemma snoozed_reminder_witness :
  let r := check_and_show_reminders (λ _, None) default_settings busy_tracker
             (check_env Yes) (PopupManager.init, []) in
  manager_of (check_and_show_reminders (λ _, None) default_settings
                busy_tracker
                (ReminderEnv (Qc_of_Z 2100) (Qc_of_Z 2100) (Qc_of_Z 2110) Yes)
                (manager_of r, popups_of r))
  = manager_of r.
Proof.
  apply (snoozed_reminder_stays_silent (λ _, None) default_settings
           default_settings busy_tracker busy_tracker (check_env Yes)
           (ReminderEnv (Qc_of_Z 2100) (Qc_of_Z 2100) (Qc_of_Z 2110) Yes)
           PopupManager.init (Qc_of_Z 30));
    [reflexivity|reflexivity|reflexivity|compute_done|compute_done
    |compute_done|discriminate].
Defined.

Lemma unusable_break_interval_witness :
  check_and_show_reminders (λ _, None) broken_settings busy_tracker
    (check_env No) (PopupManager.init, [])
  = (None, (PopupManager.init, [])).
Proof.
  apply (unusable_break_interval_stops_check (λ _, None) broken_settings
           busy_tracker (check_env No) (PopupManager.init, []));
    reflexivity.
Defined.

Lemma check_shows_witness :
  raised (check_and_show_reminders (λ _, None) default_settings busy_tracker
            (check_env No) (PopupManager.init, [])) = false.
Proof.
  apply (check_shows_break_then_usage_then_idle (λ _, None) default_settings
           busy_tracker (check_env No) PopupManager.init (Qc_of_Z 30)
           (Qc_of_Z 2) (Qc_of_Z 15)); reflexivity.
Defined.

Lemma format_duration_witness :
  format_duration (Qc_of_Z 3725)
  = pretty 1%Z +:+ "h " +:+ pretty 2%Z +:+ "m " +:+ pretty 5%Z +:+ "s".
Proof.
  apply (format_duration_parts (Qc_of_Z 3725)). by vm_compute.
Defined.

Lemma logs_view_witness :
  update_logs busy_tracker = log_line <$> reverse (daily_logs busy_tracker).
Proof.
  apply (logs_view_shows_newest_fifty busy_tracker). simpl. lia.
Defined.


Lemma usage_alert_witness :
  (Popup "Usage Alert"
     (UsageMessage (Qc_of_Z 9000 / Qc_of_Z 3600) "Chrome.exe") "warning"
   ∈ popups_of (check_and_show_reminders (λ _, None) default_settings
                  browsing_tracker (check_env No) (PopupManager.init, [])))
  ∧ title (Popup "Usage Alert"
             (UsageMessage (Qc_of_Z 9000 / Qc_of_Z 3600) "Chrome.exe")
             "warning") = "Usage Alert".
Proof.
  apply (usage_alert_when_keyword_occurs (λ _, None) default_settings
           browsing_tracker (check_env No) PopupManager.init (Qc_of_Z 30)
           (Qc_of_Z 2) (Qc_of_Z 15)); try reflexivity.
  exists ("Chrome.exe", Qc_of_Z 9000). split; [apply list_elem_of_here|].
  split; [reflexivity|]. split; [|compute_done].
  exists "chrome". split; [apply list_elem_of_here|].
  by exists "", ".exe".
Defined.
